(** * rss_ringoccs: special functions and their Python entry points

    A shallow embedding of

    - [LambertW_Double] (diffrec/src/__math_function_lambertw.c),
    - [Resolution_Inverse_Double] and [rssringoccs_Kaiser_Bessel_Double]
      (src/special_functions/kaiser_bessel.c),
    - the CPython wrappers [besselJ0] (diffrec/src/_bessel.h),
      [compute_norm_eq] and [fresnel_transform] (the special-functions
      extension module),
    - and, further on, of [rssringoccs_Wavelength_To_Wavenumber_Double],
      [rssringoccs_CDouble_Abs_Squared], the [Where_Greater] functions, the
      ufunc loop [double_fresnel_scale], and the wrappers
      [OneVarFunctionForNumpy], [max], [min] and [window_norm].

    A C [double] is an IEEE 754 binary64 number, modelled by Rocq's primitive
    [float]; the C operators [<], [<=], [==] on doubles are [<?], [<=?] and
    [=?] of [PrimFloat], arithmetic is round-to-nearest-even and evaluated
    operation by operation (no fused multiply-add).  Where a statement of
    the specification is about the numbers themselves, the exact value of a
    double is an integer multiple of 2^-1074 or a real.  The functions of libm
    that have no counterpart in [PrimFloat] ([exp], [log]) and the routines
    of the package that live in other translation units are section
    variables.  C [long] is 64 bits wide (LP64).  Loops without a bound in
    the source take a [fuel] argument.

    The definitions come first, module by module; the properties follow in
    the modules named [...Facts] and the runs on concrete inputs after
    them. *)

From Stdlib Require Import Reals Lra.
From Stdlib Require Import ZArith Bool List Floats Lia.
From Stdlib Require Import Sorted.
Import ListNotations.

(** ** C doubles *)

Module CDouble.

Local Open Scope float_scope.

(** Constants of rss_ringoccs_math.h, as the compiler rounds them. *)

(* #define RCPR_EULER_E 0.367879441171442321595523770161460867 *)
Definition RCPR_EULER_E : float := 0x1.78b56362cef38p-2.

(* #define ONE_PI 3.141592653589793238462643383279502880 *)
Definition ONE_PI : float := 0x1.921fb54442d18p+1.

(** The smallest positive double, 2^-1074 (4.94e-324). *)
Definition DBL_TRUE_MIN : float := 0x1p-1074.

Definition is_finite (x : float) : bool := abs x <? infinity.

Definition SFsigned (s : bool) (f : spec_float) : Prop :=
  match f with
  | S754_zero s' | S754_infinity s' | S754_finite s' _ _ => s' = s
  | S754_nan => False
  end.

(** A double that is positive and below [INFINITY]: a finite number with the
    sign bit clear. *)
Definition is_pos_finite (v : float) : bool := (0 <? v) && (v <? infinity).

(** A finite nonzero double, whatever its sign. *)
Definition is_finite_nonzero (v : float) : bool :=
  is_finite v && negb (v =? 0).

(** The number a finite double stands for, as a multiple of 2^-1074: every
    finite double is one.  [None] for the infinities and NaN. *)
Definition exact (x : float) : option Z :=
  match Prim2SF x with
  | S754_zero _ => Some 0%Z
  | S754_finite s m e => Some (cond_Zopp s (Zpos m) * 2 ^ (e + 1074))%Z
  | _ => None
  end.



(** The conversion [(double) n] of a C integer: the nearest double, ties to
    even. *)
Definition of_Z (n : Z) : float :=
  SF2Prim (binary_normalize prec emax n 0 false).

End CDouble.

(** ** The special functions *)

Module SpecialFunctions.

Import CDouble.
Local Open Scope float_scope.

Section Libm.

(** [exp] and [log] of math.h. *)
Variables exp log : float -> float.

(** [rssringoccs_Bessel_I0_Double], defined in another translation unit. *)
Variable rssringoccs_Bessel_I0_Double : float -> float.

(** *** LambertW_Double *)

(* double EPS = 1.0e-8; *)
Definition EPS : float := 0x1.5798ee2308c3ap-27.

(** One Halley step for the root of [t*exp(t) - x] at [x0]:
<<
    exp_x0 = exp(x0);
    dx = (x0*exp_x0-x)/(exp_x0*(x0+1.0) -
                        (x0+2.0)*(x0*exp_x0-x)/(2.0*x0+2.0));
>> *)
Definition halley_dx (x x0 : float) : float :=
  let exp_x0 := exp x0 in
  (x0 * exp_x0 - x) /
  (exp_x0 * (x0 + 1) - (x0 + 2) * (x0 * exp_x0 - x) / (2 * x0 + 2)).

(** [while (fabs(dx) > EPS) { ...; x0 = x0 - dx; } return x0;]
    The loop has no iteration bound in the source; [fuel] bounds the number
    of passes, and [None] is "still iterating when the fuel ran out". *)
Fixpoint LambertW_loop (fuel : nat) (x x0 dx : float) : option float :=
  if EPS <? abs dx then
    match fuel with
    | O => None
    | S fuel' =>
        let dx' := halley_dx x x0 in
        LambertW_loop fuel' x (x0 - dx') dx'
    end
  else Some x0.

(** The starting guess.  The last two branches return from the function
    instead of producing a guess ([inr]); under the enclosing test they are
    never taken. *)
Definition LambertW_guess (x : float) : float + float :=
  if 2 <? x then inl (log (x / log x))
  else if - RCPR_EULER_E <? x then inl x
  else if x =? - RCPR_EULER_E then inr (-1)
  else inr nan.

Definition LambertW_Double (fuel : nat) (x : float) : option float :=
  if (x <? infinity) && (- RCPR_EULER_E <? x) then
    match LambertW_guess x with
    | inr r => Some r
    | inl x0 =>
        let dx := halley_dx x x0 in
        LambertW_loop fuel x (x0 - dx) dx
    end
  else if x =? - RCPR_EULER_E then Some (-1)
  else if x <? - RCPR_EULER_E then Some nan
  else Some infinity.

(** *** Resolution_Inverse_Double *)

Definition Resolution_Inverse_Double (fuel : nat) (x : float) : option float :=
  if x <=? 1 then Some nan
  else if x <? infinity then
    let P1 := x / (1 - x) in
    let P2 := P1 * exp P1 in
    match LambertW_Double fuel P2 with
    | Some w => Some (w - P1)
    | None => None
    end
  else Some 0.

(** Modelled from the spec: the relation that Resolution_Inverse inverts,
    "y = x/(e^{-x} + x - 1)", evaluated in double arithmetic.  It is not
    among these sources. *)
Definition resolution (x : float) : float := x / (exp (- x) + x - 1).

(** *** rssringoccs_Kaiser_Bessel_Double *)

(** The argument handed to the Bessel function inside the window:
<<
    arg = 2.0*abs_x/W;
    arg = rssringoccs_Sqrt_Double(1.0 - arg*arg);
>> *)
Definition Kaiser_Bessel_arg (abs_x W : float) : float :=
  let arg := 2 * abs_x / W in
  sqrt (1 - arg * arg).

Definition rssringoccs_Kaiser_Bessel_Double (x W alpha : float) : float :=
  let abs_x := abs x in
  if alpha =? 0 then
    if abs_x <? 0.5 * W then 1 else 0
  else
    if abs_x <? 0.5 * W then
      let arg := Kaiser_Bessel_arg abs_x W in
      let alpha := alpha * ONE_PI in
      rssringoccs_Bessel_I0_Double (alpha * arg) /
      rssringoccs_Bessel_I0_Double alpha
    else 0.

End Libm.

(** The support of the windows in the words of the specification,
    [|x| < W/2], with nothing rounded: twice [|x|] is below [W], every
    finite [x] is inside an infinite positive width, and an infinite [x] or
    a NaN is inside of nothing. *)
Definition inside_half_width (x W : float) : bool :=
  match exact x, exact W with
  | Some a, Some w => (2 * Z.abs a <? w)%Z
  | Some _, None => infinity =? W
  | None, _ => false
  end.

(** Stand-ins for the library routines, used to run the functions on
    concrete numbers: truncated power series.  [exp_series] sums
    [x^k/k!] and [Bessel_I0_series] sums [(x^2/4)^k/(k!)^2], both for
    [k < 40]. *)
Fixpoint series (term : float) (ratio : nat -> float) (k n : nat) : float :=
  match n with
  | O => 0
  | S n' => term + series (term * ratio k) ratio (S k) n'
  end.

Definition float_of_nat (k : nat) : float := of_Z (Z.of_nat k).

Definition exp_series (x : float) : float :=
  series 1 (fun k => x / float_of_nat (S k)) 0 40.

Definition Bessel_I0_series (x : float) : float :=
  series 1
    (fun k => (x * x / 4) / (float_of_nat (S k) * float_of_nat (S k))) 0 40.

(** A logarithm by Newton's iteration on [exp_series]. *)
Fixpoint log_newton (n : nat) (x y : float) : float :=
  match n with
  | O => y
  | S n' => log_newton n' x (y - 1 + x / exp_series y)
  end.

Definition log_series (x : float) : float := log_newton 60 x 1.

(** A stand-in for an [exp] that rounds correctly: the double nearest to
    [e^x] at the two arguments that the runs at the branch point of the
    Lambert W function need, [-1] and [-1 + 2^-30], and [exp_series]
    elsewhere. *)
Definition exp_rounded (x : float) : float :=
  if x =? -1 then 0x1.78b56362cef38p-2
  else if x =? -0x1.fffffff8p-1 then 0x1.78b56368b1c91p-2
  else exp_series x.

End SpecialFunctions.

(** ** The CPython and NumPy interface, as far as the wrappers use it *)

Module CPython.

Import CDouble.

(** The type numbers of numpy/ndarraytypes.h ([enum NPY_TYPES]). *)
Inductive NPY_TYPES :=
| NPY_BOOL | NPY_BYTE | NPY_UBYTE | NPY_SHORT | NPY_USHORT | NPY_INT
| NPY_UINT | NPY_LONG | NPY_ULONG | NPY_LONGLONG | NPY_ULONGLONG
| NPY_FLOAT | NPY_DOUBLE | NPY_LONGDOUBLE
| NPY_CFLOAT | NPY_CDOUBLE | NPY_CLONGDOUBLE
| NPY_OBJECT | NPY_STRING | NPY_UNICODE | NPY_VOID
| NPY_DATETIME | NPY_TIMEDELTA | NPY_HALF.

Definition type_num (t : NPY_TYPES) : Z :=
  match t with
  | NPY_BOOL => 0 | NPY_BYTE => 1 | NPY_UBYTE => 2 | NPY_SHORT => 3
  | NPY_USHORT => 4 | NPY_INT => 5 | NPY_UINT => 6 | NPY_LONG => 7
  | NPY_ULONG => 8 | NPY_LONGLONG => 9 | NPY_ULONGLONG => 10
  | NPY_FLOAT => 11 | NPY_DOUBLE => 12 | NPY_LONGDOUBLE => 13
  | NPY_CFLOAT => 14 | NPY_CDOUBLE => 15 | NPY_CLONGDOUBLE => 16
  | NPY_OBJECT => 17 | NPY_STRING => 18 | NPY_UNICODE => 19 | NPY_VOID => 20
  | NPY_DATETIME => 21 | NPY_TIMEDELTA => 22 | NPY_HALF => 23
  end.

(** [typenum == NPY_X] *)
Definition type_eqb (a b : NPY_TYPES) : bool := Z.eqb (type_num a) (type_num b).

(** One element of an array buffer. *)
Inductive npy_scalar :=
| npy_int (n : Z)
| npy_real (d : float)
| npy_complex (re im : float).

Record PyArrayObject := {
  PyArray_TYPE : NPY_TYPES;
  PyArray_DIMS : list Z;
  PyArray_DATA : list npy_scalar
}.

Definition PyArray_NDIM (a : PyArrayObject) : Z :=
  Z.of_nat (length (PyArray_DIMS a)).

#[local] Set Warnings "-register-all".

(** The Python values the wrappers distinguish. *)
Inductive PyObject :=
| PyLong (n : Z)
| PyFloat (d : float)
| PyArray (a : PyArrayObject)
| PyList (items : list PyObject)
| PyNone.

Inductive PyExc :=
| PyExc_TypeError | PyExc_IndexError | PyExc_MemoryError | PyExc_OverflowError.

(** What a wrapper leaves behind: the returned pointer ([None] is [NULL])
    and the error indicator of the interpreter; or [Undefined], when the C
    code dereferences [NULL], reads memory that is not there, or overflows a
    signed integer. *)
Inductive outcome :=
| Done (ret : option PyObject) (err : option PyExc)
| Undefined.

Definition Return (v : PyObject) : outcome := Done (Some v) None.
Definition Raise (e : PyExc) : outcome := Done None (Some e).

Definition PyLong_Check (o : PyObject) : bool :=
  match o with PyLong _ => true | _ => false end.

Definition PyFloat_Check (o : PyObject) : bool :=
  match o with PyFloat _ => true | _ => false end.

(** C [long] on the LP64 systems the package is built for. *)
Definition LONG_MAX : Z := 2 ^ 63 - 1.
Definition LONG_MIN : Z := - 2 ^ 63.
Definition UCHAR_MAX : Z := 255.

(** [a + b] on two C [long]s; [None] when the sum does not fit, which the
    language leaves undefined. *)
Definition long_add (a b : Z) : option Z :=
  let sum := (a + b)%Z in
  if (LONG_MIN <=? sum)%Z && (sum <=? LONG_MAX)%Z then Some sum else None.

(** [size_t] is 64 bits wide; a [long] converted to it wraps. *)
Definition SIZE_MAX : Z := 2 ^ 64 - 1.
Definition to_size_t (n : Z) : Z := n mod 2 ^ 64.

(** [npy_int] is a 32-bit [int]; an [npy_intp] stored into it wraps. *)
Definition to_npy_int (n : Z) : Z := (n + 2 ^ 31) mod 2 ^ 32 - 2 ^ 31.

(** [PyLong_AsLong]: the value, or [-1] with [OverflowError] set. *)
Definition PyLong_AsLong (n : Z) : Z * option PyExc :=
  if (LONG_MIN <=? n)%Z && (n <=? LONG_MAX)%Z then (n, None)
  else ((-1)%Z, Some PyExc_OverflowError).

(** *** PyArg_ParseTuple *)

(** The format units that occur: ["O!"] with [&PyArray_Type], ["O"], ["l"],
    ["b"] and ["d"]. *)
Inductive format_unit := fmt_O_array | fmt_O | fmt_l | fmt_b | fmt_d.

Inductive c_value :=
| C_array (a : PyArrayObject)
| C_object (o : PyObject)
| C_long (n : Z)
| C_uchar (n : Z)
| C_double (d : float).

Definition convert (u : format_unit) (o : PyObject) : option c_value :=
  match u, o with
  | fmt_O_array, PyArray a => Some (C_array a)
  | fmt_O, _ => Some (C_object o)
  | fmt_l, PyLong n =>
      if (LONG_MIN <=? n)%Z && (n <=? LONG_MAX)%Z then Some (C_long n) else None
  | fmt_b, PyLong n =>
      if (0 <=? n)%Z && (n <=? UCHAR_MAX)%Z then Some (C_uchar n) else None
  | fmt_d, PyFloat d => Some (C_double d)
  | fmt_d, PyLong n =>
      let d := of_Z n in if is_finite d then Some (C_double d) else None
  | _, _ => None
  end.

(** [None] is the zero return of [PyArg_ParseTuple]: wrong number of
    arguments, wrong type, or a number out of range. *)
Fixpoint PyArg_ParseTuple (format : list format_unit) (args : list PyObject)
  : option (list c_value) :=
  match format, args with
  | [], [] => Some []
  | u :: format', o :: args' =>
      match convert u o, PyArg_ParseTuple format' args' with
      | Some v, Some vs => Some (v :: vs)
      | _, _ => None
      end
  | _, _ => None
  end.

(** The items a Python list yields when iterated; nothing else of the
    values above is taken to be iterable here. *)
Definition list_items (o : PyObject) : option (list PyObject) :=
  match o with
  | PyList items => Some items
  | _ => None
  end.

(** *** The heap of [malloc] *)

(** Live blocks with their contents; a block is named by its number.
    [room] is the largest request, in bytes, that the allocator serves. *)
Record heap := {
  live : list (nat * list npy_scalar);
  next_block : nat;
  room : Z
}.

(** No block yet, and room for requests up to 2^40 bytes. *)
Definition empty_heap : heap :=
  {| live := []; next_block := 0; room := 2 ^ 40 |}.

(** [malloc(size)]: a fresh block, or [NULL] ([None]) when the request is
    larger than the allocator serves. *)
Definition malloc (h : heap) (size : Z) : option nat * heap :=
  if (size <=? room h)%Z then
    (Some (next_block h),
     {| live := (next_block h, []) :: live h;
        next_block := S (next_block h);
        room := room h |})
  else (None, h).

Fixpoint block_contents (l : list (nat * list npy_scalar)) (b : nat)
  : option (list npy_scalar) :=
  match l with
  | [] => None
  | (b', c) :: l' => if Nat.eqb b b' then Some c else block_contents l' b
  end.

Definition allocated (h : heap) (b : nat) : bool :=
  match block_contents (live h) b with Some _ => true | None => false end.

Definition free (h : heap) (b : nat) : heap :=
  {| live := filter (fun bc => negb (Nat.eqb (fst bc) b)) (live h);
     next_block := next_block h;
     room := room h |}.

(** [capsule_cleanup]: the destructor of the capsule that owns the data of
    a returned array; it frees the block. *)
Definition capsule_cleanup (h : heap) (memory : nat) : heap := free h memory.

Definition store (h : heap) (b : nat) (c : list npy_scalar) : heap :=
  {| live := map (fun bc => if Nat.eqb (fst bc) b then (b, c) else bc) (live h);
     next_block := next_block h;
     room := room h |}.

End CPython.

(** ** The wrappers of the extension module *)

Module Wrappers.

Import CDouble CPython.
Local Open Scope Z_scope.

(** *** besselJ0 (diffrec/src/_bessel.h) *)

Section BesselJ0.

(** The scalar routines and the loop macro come from special_functions.h,
    which is not among these sources. *)
Variables BesselJ0_Float BesselJ0_Double BesselJ0_Long_Double
          BesselJ0_Char BesselJ0_UChar BesselJ0_Short BesselJ0_UShort
          BesselJ0_Int BesselJ0_UInt BesselJ0_Long BesselJ0_ULong
          BesselJ0_Long_Long : npy_scalar -> npy_scalar.

Variable get_one_real_from_one_real :
  list npy_scalar -> Z -> (npy_scalar -> npy_scalar) -> list npy_scalar.

(** The integer branches; [None] is the final [else], which raises. *)
Definition besselJ0_integer (typenum : NPY_TYPES) (data : list npy_scalar)
  (dim : Z) : option (list npy_scalar) :=
  if type_eqb typenum NPY_BYTE then
    Some (get_one_real_from_one_real data dim BesselJ0_Char)
  else if type_eqb typenum NPY_UBYTE then
    Some (get_one_real_from_one_real data dim BesselJ0_UChar)
  else if type_eqb typenum NPY_SHORT then
    Some (get_one_real_from_one_real data dim BesselJ0_Short)
  else if type_eqb typenum NPY_USHORT then
    Some (get_one_real_from_one_real data dim BesselJ0_UShort)
  else if type_eqb typenum NPY_INT then
    Some (get_one_real_from_one_real data dim BesselJ0_Int)
  else if type_eqb typenum NPY_UINT then
    Some (get_one_real_from_one_real data dim BesselJ0_UInt)
  else if type_eqb typenum NPY_LONG then
    Some (get_one_real_from_one_real data dim BesselJ0_Long)
  else if type_eqb typenum NPY_ULONG then
    Some (get_one_real_from_one_real data dim BesselJ0_ULong)
  else if type_eqb typenum NPY_LONGLONG then
    Some (get_one_real_from_one_real data dim BesselJ0_Long_Long)
  else if type_eqb typenum NPY_ULONG then
    Some (get_one_real_from_one_real data dim BesselJ0_Long_Long)
  else None.

Definition new_array (t : NPY_TYPES) (dim : Z) (y : list npy_scalar)
  : PyObject :=
  PyArray {| PyArray_TYPE := t; PyArray_DIMS := [dim]; PyArray_DATA := y |}.

Definition besselJ0 (args : list PyObject) : outcome :=
  match PyArg_ParseTuple [fmt_O_array] args with
  | Some [C_array x] =>
      let typenum := PyArray_TYPE x in
      match PyArray_DIMS x with
      | [] => Undefined            (* PyArray_DIMS(x)[0] of a 0-d array *)
      | dim :: _ =>
          let data := PyArray_DATA x in
          if negb (PyArray_NDIM x =? 1) then Raise PyExc_TypeError
          else
            (* an empty array sets the error and carries on *)
            let err := if dim =? 0 then Some PyExc_TypeError else None in
            if type_eqb typenum NPY_FLOAT then
              Done (Some (new_array NPY_FLOAT dim
                     (get_one_real_from_one_real data dim BesselJ0_Float))) err
            else if type_eqb typenum NPY_DOUBLE then
              Done (Some (new_array NPY_DOUBLE dim
                     (get_one_real_from_one_real data dim BesselJ0_Double))) err
            else if type_eqb typenum NPY_LONGDOUBLE then
              Done (Some (new_array NPY_LONGDOUBLE dim
                     (get_one_real_from_one_real data dim
                        BesselJ0_Long_Double))) err
            else
              match besselJ0_integer typenum data dim with
              | Some y => Done (Some (new_array NPY_DOUBLE dim y)) err
              | None => Raise PyExc_TypeError
              end
      end
  | _ => Raise PyExc_TypeError
  end.

End BesselJ0.

(** *** compute_norm_eq *)

Section ComputeNormEq.

(** The [Normeq_*] routines are defined in another translation unit. *)
Variables Normeq_Float Normeq_Double Normeq_Long_Double Normeq_Short
          Normeq_Int Normeq_Long Normeq_Long_Long
  : list npy_scalar -> Z -> float.

Definition compute_norm_eq_array (arr : PyArrayObject) : outcome :=
  if negb (PyArray_NDIM arr =? 1) then Raise PyExc_TypeError
  else
    let typenum := PyArray_TYPE arr in
    let dim := to_npy_int (hd 0 (PyArray_DIMS arr)) in
    let data := PyArray_DATA arr in
    if dim =? 0 then Raise PyExc_TypeError
    else if type_eqb typenum NPY_FLOAT then
      Return (PyFloat (Normeq_Float data dim))
    else if type_eqb typenum NPY_DOUBLE then
      Return (PyFloat (Normeq_Double data dim))
    else if type_eqb typenum NPY_LONGDOUBLE then
      Return (PyFloat (Normeq_Long_Double data dim))
    else if type_eqb typenum NPY_SHORT then
      Return (PyFloat (Normeq_Short data dim))
    else if type_eqb typenum NPY_INT then
      Return (PyFloat (Normeq_Int data dim))
    else if type_eqb typenum NPY_LONG then
      Return (PyFloat (Normeq_Long data dim))
    else if type_eqb typenum NPY_LONGLONG then
      Return (PyFloat (Normeq_Long_Long data dim))
    else Raise PyExc_TypeError.

Definition compute_norm_eq (args : list PyObject) : outcome :=
  match args with
  | [] => Undefined      (* PyTuple_GetItem(args, 0) is NULL *)
  | tuple :: _ =>
      if PyLong_Check tuple then
        match PyArg_ParseTuple [fmt_l] args with
        | Some [C_long normeq] => Return (PyLong normeq)
        | _ => Raise PyExc_TypeError
        end
      else if PyFloat_Check tuple then
        match PyArg_ParseTuple [fmt_d] args with
        | Some [C_double normeq] => Return (PyFloat normeq)
        | _ => Raise PyExc_TypeError
        end
      else
        match PyArg_ParseTuple [fmt_O_array] args with
        | Some [C_array arr] => compute_norm_eq_array arr
        | _ => Raise PyExc_TypeError
        end
  end.

End ComputeNormEq.

(** *** fresnel_transform *)

(** The six correction routines of _diffraction_functions.h. *)
Inductive Correction :=
| SimpleFFT        (* DiffractionCorrectionSimpleFFT *)
| Newton           (* DiffractionCorrectionNewton *)
| PerturbedNewton  (* DiffractionCorrectionPerturbedNewton *)
| Ellipse          (* DiffractionCorrectionEllipse *)
| Fresnel          (* DiffractionCorrectionFresnel *)
| Legendre.        (* DiffractionCorrectionLegendre *)

(** The fields of [DLPObj] that [fresnel_transform] fills in.  [status] is
    not among them: it is written by the correction routine only.  [T_out]
    is a pointer: a block, or [NULL] ([None]). *)
Record DLPObj := {
  start : Z;
  n_used : Z;
  wtype : Z;
  use_norm : Z;
  use_fwd : Z;
  order : Z;
  ecc : float;
  peri : float;
  interp : Z;
  perturb : list float;
  arr_size : Z;
  T_in : list npy_scalar;
  rho_km_vals : list npy_scalar;
  F_km_vals : list npy_scalar;
  phi_rad_vals : list npy_scalar;
  kd_vals : list npy_scalar;
  B_rad_vals : list npy_scalar;
  D_km_vals : list npy_scalar;
  w_km_vals : list npy_scalar;
  T_out : option nat
}.

(** "O!O!O!O!O!O!O!O!Ollbbbbbbdd" *)
Definition fresnel_transform_format : list format_unit :=
  [fmt_O_array; fmt_O_array; fmt_O_array; fmt_O_array;
   fmt_O_array; fmt_O_array; fmt_O_array; fmt_O_array;
   fmt_O; fmt_l; fmt_l;
   fmt_b; fmt_b; fmt_b; fmt_b; fmt_b; fmt_b;
   fmt_d; fmt_d].

(** The loop [for (i = 0; i < 5; ++i)] over the iterator of [perturb_list].
    [cells] is what [dlp.perturb[i]], [dlp.perturb[i+1]], ... hold before the
    loop writes them, and [err] is the error indicator.  An item that is
    neither an int nor a float sets TypeError and leaves its cell as it was;
    the loop goes on.  It does not stop on an exhausted iterator either: the
    [NULL] that [PyIter_Next] returns is handed to [PyLong_Check], which
    dereferences it ([None] here). *)
Fixpoint perturb_loop (n : nat) (items : list PyObject) (cells : list float)
  (err : option PyExc) : option (list float * option PyExc) :=
  match n with
  | O => Some ([], err)
  | S n' =>
      match items with
      | [] => None
      | next :: items' =>
          let '(value, err') :=
            match next with
            | PyLong z =>
                let '(v, e) := PyLong_AsLong z in
                (of_Z v, match e with Some _ => e | None => err end)
            | PyFloat d => (d, err)
            | _ => (hd PrimFloat.zero cells, Some PyExc_TypeError)
            end in
          match perturb_loop n' items' (tl cells) err' with
          | Some (p, err'') => Some (value :: p, err'')
          | None => None
          end
      end
  end.

(** The three tests made on each real input array.  The length test reads
    the dimensions of [len_of], which is the array itself except for
    [D_km_vals], whose test reads [B_rad_vals]. *)
Definition check_real_array (a len_of : PyArrayObject) (size : Z)
  : option PyExc :=
  if negb (type_eqb (PyArray_TYPE a) NPY_DOUBLE) then Some PyExc_TypeError
  else if negb (PyArray_NDIM a =? 1) then Some PyExc_IndexError
  else if negb (hd 0 (PyArray_DIMS len_of) =? size) then Some PyExc_IndexError
  else None.

Definition check_T_in (a : PyArrayObject) : option PyExc :=
  if negb (type_eqb (PyArray_TYPE a) NPY_CDOUBLE) then Some PyExc_TypeError
  else if negb (PyArray_NDIM a =? 1) then Some PyExc_IndexError
  else None.

(** [a; b; c] run in this order, the first error wins. *)
Fixpoint first_error (checks : list (option PyExc)) : option PyExc :=
  match checks with
  | [] => None
  | Some e :: _ => Some e
  | None :: checks' => first_error checks'
  end.

Definition fl_zero (d : float) : bool := PrimFloat.eqb d PrimFloat.zero.

(** [(dlp.perturb[0] == 0) && ... && (dlp.perturb[4] == 0)] *)
Definition perturb_all_zero (p : list float) : bool :=
  fl_zero (nth 0 p PrimFloat.zero) && fl_zero (nth 1 p PrimFloat.zero) &&
  fl_zero (nth 2 p PrimFloat.zero) && fl_zero (nth 3 p PrimFloat.zero) &&
  fl_zero (nth 4 p PrimFloat.zero).

(** The choice among the correction routines. *)
Definition select_correction (use_fft : Z) (dlp : DLPObj) : Correction :=
  if negb (use_fft =? 0) then SimpleFFT
  else
    if order dlp =? 0 then
      if fl_zero (ecc dlp) && fl_zero (peri dlp) then
        if perturb_all_zero (perturb dlp) then Newton
        else PerturbedNewton
      else Ellipse
    else if order dlp =? 1 then Fresnel
    else Legendre.

(** The choice in the words of the specification: FFT when [use_fft] is
    nonzero; otherwise Newton for order 0, [ecc] and [peri] zero and all
    five perturbation coefficients zero; perturbed Newton for order 0,
    [ecc] and [peri] zero and some coefficient nonzero; elliptic for order 0
    and [ecc] or [peri] nonzero; Fresnel for order 1; Legendre for every
    other order. *)
Definition claimed_correction (use_fft order : Z) (ecc peri : float)
  (perturb : list float) : Correction :=
  if negb (use_fft =? 0) then SimpleFFT
  else if (order =? 0) && fl_zero ecc && fl_zero peri
          && forallb fl_zero (firstn 5 perturb) then Newton
  else if (order =? 0) && fl_zero ecc && fl_zero peri
          && existsb (fun c => negb (fl_zero c)) (firstn 5 perturb)
       then PerturbedNewton
  else if (order =? 0) && (negb (fl_zero ecc) || negb (fl_zero peri))
       then Ellipse
  else if order =? 1 then Fresnel
  else Legendre.


Section FresnelTransform.

(** The iterator protocol of the interpreter: the items [PyIter_Next]
    yields for an object, [None] when [PyObject_GetIter] returns [NULL]. *)
Variable PyObject_GetIter : PyObject -> option (list PyObject).

(** [DLPObj dlp;] is not initialised: what the five cells of [dlp.perturb]
    hold when the function is entered (a cell the list does not have reads
    as 0). *)
Variable dlp_perturb : list float.

(** The correction routines write the reconstruction into the block
    [T_out] and report through [dlp.status], which is the number returned
    here. *)
Variable DiffractionCorrection : Correction -> DLPObj -> heap -> Z * heap.

(** Everything up to and including the [malloc] of [dlp.T_out]: either the
    function has returned ([inl]), or the call is set up ([inr]) with
    [use_fft], the filled-in [dlp], the error indicator and the heap.
    [start+n_used] and [dlp.n_used+1] are sums of [long]s, and the size
    handed to [malloc] is [(dlp.n_used+1)*sizeof(complex double)], a
    product in [size_t]; [sizeof(complex double)] is 16. *)
Definition fresnel_transform_setup (args : list PyObject) (h : heap)
  : (outcome * heap) + (Z * DLPObj * option PyExc * heap) :=
  match PyArg_ParseTuple fresnel_transform_format args with
  | Some [C_array T_in_a; C_array rho_km_vals_a; C_array F_km_vals_a;
          C_array phi_rad_vals_a; C_array kd_vals_a; C_array B_rad_vals_a;
          C_array D_km_vals_a; C_array w_km_vals_a;
          C_object perturb_list; C_long start_v; C_long n_used_v;
          C_uchar wtype_v; C_uchar use_norm_v; C_uchar use_fwd_v;
          C_uchar use_fft; C_uchar order_v; C_uchar interp_v;
          C_double ecc_v; C_double peri_v] =>
      match PyObject_GetIter perturb_list with
      | None => inl (Raise PyExc_TypeError, h)
      | Some items =>
          match perturb_loop 5 items dlp_perturb None with
          | None => inl (Undefined, h)
          | Some (perturb_v, err) =>
              match PyArray_DIMS T_in_a with
              | [] => inl (Undefined, h)  (* PyArray_DIMS(T_in)[0], 0-d array *)
              | arr_size_v :: _ =>
                  match first_error
                    [check_T_in T_in_a;
                     check_real_array rho_km_vals_a rho_km_vals_a arr_size_v;
                     check_real_array F_km_vals_a F_km_vals_a arr_size_v;
                     check_real_array phi_rad_vals_a phi_rad_vals_a arr_size_v;
                     check_real_array kd_vals_a kd_vals_a arr_size_v;
                     check_real_array B_rad_vals_a B_rad_vals_a arr_size_v;
                     check_real_array D_km_vals_a B_rad_vals_a arr_size_v;
                     check_real_array w_km_vals_a w_km_vals_a arr_size_v] with
                  | Some e => inl (Raise e, h)
                  | None =>
                      if arr_size_v <? start_v then
                        inl (Raise PyExc_IndexError, h)
                      else
                        match long_add start_v n_used_v with
                        | None => inl (Undefined, h)
                        | Some final =>
                            if arr_size_v <? final then
                              inl (Raise PyExc_IndexError, h)
                            else
                              match long_add n_used_v 1 with
                              | None => inl (Undefined, h)
                              | Some samples =>
                                  let '(block, h1) :=
                                    malloc h (to_size_t (samples * 16)) in
                                  inr (use_fft,
                                       {| start := start_v;
                                          n_used := n_used_v;
                                          wtype := wtype_v;
                                          use_norm := use_norm_v;
                                          use_fwd := use_fwd_v;
                                          order := order_v;
                                          ecc := ecc_v; peri := peri_v;
                                          interp := interp_v;
                                          perturb := perturb_v;
                                          arr_size := arr_size_v;
                                          T_in := PyArray_DATA T_in_a;
                                          rho_km_vals :=
                                            PyArray_DATA rho_km_vals_a;
                                          F_km_vals :=
                                            PyArray_DATA F_km_vals_a;
                                          phi_rad_vals :=
                                            PyArray_DATA phi_rad_vals_a;
                                          kd_vals := PyArray_DATA kd_vals_a;
                                          B_rad_vals :=
                                            PyArray_DATA B_rad_vals_a;
                                          D_km_vals :=
                                            PyArray_DATA D_km_vals_a;
                                          w_km_vals :=
                                            PyArray_DATA w_km_vals_a;
                                          T_out := block |},
                                       err, h1)
                              end
                        end
                  end
              end
          end
      end
  | _ => inl (Raise PyExc_TypeError, h)
  end.

(** The contents behind a pointer: nothing for [NULL] and for a block that
    is not allocated. *)
Definition pointee (h : heap) (p : option nat) : option (list npy_scalar) :=
  match p with
  | Some b => block_contents (live h) b
  | None => None
  end.

(** From [if (dlp.status == 0)] to the end of the function.  The array of
    a successful call is made over [dlp.T_out]; when that is [NULL] or a
    block that is no longer allocated the array has no memory behind it. *)
Definition fresnel_transform_finish (status : Z) (dlp : DLPObj)
  (err : option PyExc) (h : heap) : outcome * heap :=
  if status =? 0 then
    match pointee h (T_out dlp) with
    | Some y =>
        (Done (Some (PyArray {| PyArray_TYPE := NPY_CDOUBLE;
                                PyArray_DIMS := [n_used dlp + 1];
                                PyArray_DATA := y |})) err, h)
    | None => (Undefined, h)
    end
  else if status =? 1 then (Raise PyExc_TypeError, h)
  else if status =? 2 then (Raise PyExc_IndexError, h)
  else if status =? 3 then (Raise PyExc_MemoryError, h)
  else if status =? 4 then (Raise PyExc_MemoryError, h)
  else (Raise PyExc_TypeError, h).

Definition fresnel_transform (args : list PyObject) (h : heap)
  : outcome * heap :=
  match fresnel_transform_setup args h with
  | inl r => r
  | inr (use_fft, dlp, err, h1) =>
      let '(status, h2) :=
        DiffractionCorrection (select_correction use_fft dlp) dlp h1 in
      fresnel_transform_finish status dlp err h2
  end.

(** The value of [dlp.status] the call ends with, when it gets as far as a
    correction routine. *)
Definition fresnel_transform_status (args : list PyObject) (h : heap)
  : option Z :=
  match fresnel_transform_setup args h with
  | inl _ => None
  | inr (use_fft, dlp, err, h1) =>
      Some (fst (DiffractionCorrection (select_correction use_fft dlp) dlp h1))
  end.

End FresnelTransform.

(** *** A sample call

    Two samples, no perturbation, circular orbit, order 0; used to run the
    wrapper on concrete arguments. *)

Definition real_array (l : list float) : PyArrayObject :=
  {| PyArray_TYPE := NPY_DOUBLE;
     PyArray_DIMS := [Z.of_nat (length l)];
     PyArray_DATA := map npy_real l |}.

Definition complex_array (l : list (float * float)) : PyArrayObject :=
  {| PyArray_TYPE := NPY_CDOUBLE;
     PyArray_DIMS := [Z.of_nat (length l)];
     PyArray_DATA := map (fun z => npy_complex (fst z) (snd z)) l |}.

Definition sample_args (use_fft order : Z) (perturb_list : PyObject)
  (ecc : float) : list PyObject :=
  [PyArray (complex_array [(1, 0); (1, 0)]%float);   (* T_in *)
   PyArray (real_array [87400; 87401]%float);        (* rho_km_vals *)
   PyArray (real_array [1; 1]%float);                (* F_km_vals *)
   PyArray (real_array [0; 0]%float);                (* phi_rad_vals *)
   PyArray (real_array [1; 1]%float);                (* kd_vals *)
   PyArray (real_array [0.5; 0.5]%float);            (* B_rad_vals *)
   PyArray (real_array [200000; 200000]%float);      (* D_km_vals *)
   PyArray (real_array [4; 4]%float);                (* w_km_vals *)
   perturb_list;
   PyLong 0; PyLong 1;                               (* start, n_used *)
   PyLong 0; PyLong 1; PyLong 0;             (* wtype, use_norm, use_fwd *)
   PyLong use_fft; PyLong order; PyLong 0;   (* use_fft, order, interp *)
   PyFloat ecc; PyFloat 0].                          (* ecc, peri *)

Definition no_perturb : PyObject :=
  PyList [PyLong 0; PyLong 0; PyFloat 0; PyLong 0; PyLong 0].

(** The [dlp] that [sample_args] sets up with [no_perturb] and [ecc = 0]. *)
Definition sample_dlp (order : Z) : DLPObj :=
  {| start := 0; n_used := 1; wtype := 0; use_norm := 1; use_fwd := 0;
     order := order; ecc := 0; peri := 0; interp := 0;
     perturb := [0; 0; 0; 0; 0]%float; arr_size := 2;
     T_in := [npy_complex 1 0; npy_complex 1 0];
     rho_km_vals := [npy_real 87400; npy_real 87401];
     F_km_vals := [npy_real 1; npy_real 1];
     phi_rad_vals := [npy_real 0; npy_real 0];
     kd_vals := [npy_real 1; npy_real 1];
     B_rad_vals := [npy_real 0.5; npy_real 0.5];
     D_km_vals := [npy_real 200000; npy_real 200000];
     w_km_vals := [npy_real 4; npy_real 4];
     T_out := Some 0%nat |}.



(** A correction routine that succeeds and writes the input back. *)
Definition copy_input (c : Correction) (dlp : DLPObj) (h : heap) : Z * heap :=
  (0, match T_out dlp with
      | Some b => store h b (T_in dlp)
      | None => h
      end).

(** Some contents for the cells of [dlp.perturb] before they are written. *)
Definition stale_cells : list float := [1; 2; 3; 4; 5]%float.

(** A uint64 array as [unsigned long long], and stand-ins for the scalar
    routines of the other translation units. *)
Definition sample_ulonglong : PyArrayObject :=
  {| PyArray_TYPE := NPY_ULONGLONG;
     PyArray_DIMS := [3];
     PyArray_DATA := [npy_int 0; npy_int 1; npy_int 2] |}.

(** A uint64 array as NumPy types it where [long] has 64 bits:
    [NPY_ULONG]. *)
Definition sample_uint64 : PyArrayObject :=
  {| PyArray_TYPE := NPY_ULONG;
     PyArray_DIMS := [2];
     PyArray_DATA := [npy_int 0; npy_int (2 ^ 64 - 1)] |}.

Definition no_scalar (v : npy_scalar) : npy_scalar := v.

Definition loop_map (x : list npy_scalar) (dim : Z)
  (f : npy_scalar -> npy_scalar) : list npy_scalar :=
  map f (firstn (Z.to_nat dim) x).

Definition no_Normeq (data : list npy_scalar) (dim : Z) : float :=
  PrimFloat.nan.

End Wrappers.

(** ** More of the numerical code *)

Module Numerics.

Import CDouble.
Local Open Scope float_scope.

(* #define TWO_PI 6.283185307179586476925286766559005768 *)
Definition TWO_PI : float := 0x1.921fb54442d18p+2.

(** *** rssringoccs_Wavelength_To_Wavenumber_Double *)

Definition rssringoccs_Wavelength_To_Wavenumber_Double (lambda : float)
  : float :=
  TWO_PI / lambda.

(** *** rssringoccs_CDouble_Abs_Squared *)

(** Modelled from the spec: the complex type of rss_ringoccs_complex.h and
    its two accessors, which are not among these sources; the specification
    has "a plain pair {re, im} struct". *)
Record rssringoccs_ComplexDouble := {
  rssringoccs_CDouble_Real_Part : float;
  rssringoccs_CDouble_Imag_Part : float
}.

Definition rssringoccs_CDouble_Abs_Squared (z : rssringoccs_ComplexDouble)
  : float :=
  let real := rssringoccs_CDouble_Real_Part z in
  let imag := rssringoccs_CDouble_Imag_Part z in
  let abs_sq := real * real + imag * imag in
  abs_sq.

(** *** The Where_Greater functions *)

(** [l[n] = x] on an array of [length l] cells; [None] when the cell does
    not exist. *)
Fixpoint write_cell {X : Type} (l : list X) (n : nat) (x : X)
  : option (list X) :=
  match l, n with
  | [], _ => None
  | _ :: l', O => Some (x :: l')
  | y :: l', S n' =>
      match write_cell l' n' x with
      | Some l'' => Some (y :: l'')
      | None => None
      end
  end.

Section Where.

(** The element type of [data] and the conversion the comparison
    [data[i] > threshold] applies to an element: none for [double], the
    conversion to [double] for the integer types and [float]. *)
Variable elt : Type.
Variable to_double : elt -> float.

(** The first loop of [__get_where_pointer], from index [i] on, with
    [steps] passes left:
<<
    for (i=0; i<dim; ++i) {
        if (data[i] > threshold){
            dummy[arr_size] = i;
            arr_size += 1;
        }
    }
>>
    [None] when the loop reads [data] or writes [dummy] out of bounds. *)
Fixpoint where_loop (steps : nat) (i : Z) (data : list elt)
  (threshold : float) (dummy : list Z) (arr_size : Z)
  : option (list Z * Z)%type :=
  match steps with
  | O => Some (dummy, arr_size)
  | S steps' =>
      match nth_error data (Z.to_nat i) with
      | None => None
      | Some d =>
          if threshold <? to_double d then
            match write_cell dummy (Z.to_nat arr_size) i with
            | None => None
            | Some dummy' =>
                where_loop steps' (i + 1) data threshold dummy' (arr_size + 1)
            end
          else where_loop steps' (i + 1) data threshold dummy arr_size
      end
  end.

(** [__get_where_pointer(data, dim, threshold)].  [dummy] is the block of
    [dim] longs that [malloc] hands out, with whatever it holds.  The result
    is the pair behind the returned pointer: [where[0]], the array [arr] of
    [arr_size] indices copied out of [dummy], and the value of [arr_size],
    whose address is [where[1]]. *)
Definition get_where_pointer (data : list elt) (dim : Z) (threshold : float)
  (dummy : list Z) : option (list Z * Z)%type :=
  match where_loop (Z.to_nat dim) 0 data threshold dummy 0 with
  | Some (dummy', arr_size) =>
      Some (firstn (Z.to_nat arr_size) dummy', arr_size)
  | None => None
  end.

(** The indices in the words of the documentation of [where_greater]:
    "all indices n such that arr[n] > threshold", in increasing order. *)
Definition selects (data : list elt) (threshold : float) (n : nat) : bool :=
  match nth_error data n with
  | Some d => threshold <? to_double d
  | None => false
  end.

Definition where_indices (data : list elt) (dim : Z) (threshold : float)
  : list Z :=
  map Z.of_nat (filter (selects data threshold) (seq 0 (Z.to_nat dim))).

End Where.

Definition Where_Greater_Double (data : list float) (dim : Z)
  (threshold : float) (dummy : list Z) : option (list Z * Z)%type :=
  get_where_pointer float (fun d : float => d) data dim threshold dummy.

Definition Where_Greater_Long (data : list Z) (dim : Z)
  (threshold : float) (dummy : list Z) : option (list Z * Z)%type :=
  get_where_pointer Z of_Z data dim threshold dummy.

(** *** double_fresnel_scale *)

Section FresnelScale.

(** [Fresnel_Scale_Double], defined in another translation unit. *)
Variable Fresnel_Scale_Double : float -> float -> float -> float -> float.

(** [(steps[k] != 0)] *)
Definition step_flag (step : Z) : nat := if (step =? 0)%Z then 0 else 1.

(** The loop of [double_fresnel_scale], with [n] passes left and the four
    running indices; the result is what it writes to [out[i]], [out[i+1]],
    ...  [None] when an input is read out of bounds. *)
Fixpoint fresnel_scale_loop (n : nat) (lambda d phi b : list float)
  (l_step d_step p_step b_step : nat) (j k l m : nat)
  : option (list float) :=
  match n with
  | O => Some []
  | S n' =>
      match nth_error lambda j, nth_error d k,
            nth_error phi l, nth_error b m with
      | Some lambda_j, Some d_k, Some phi_l, Some b_m =>
          match fresnel_scale_loop n' lambda d phi b
                  l_step d_step p_step b_step
                  (j + l_step) (k + d_step) (l + p_step) (m + b_step) with
          | Some out =>
              Some (Fresnel_Scale_Double lambda_j d_k phi_l b_m :: out)
          | None => None
          end
      | _, _, _, _ => None
      end
  end.

Definition double_fresnel_scale (lambda d phi b : list float)
  (dimensions : Z) (steps : list Z) : option (list float) :=
  let l_step := step_flag (nth 0 steps 0%Z) in
  let d_step := step_flag (nth 1 steps 0%Z) in
  let p_step := step_flag (nth 2 steps 0%Z) in
  let b_step := step_flag (nth 3 steps 0%Z) in
  let dim := dimensions in
  fresnel_scale_loop (Z.to_nat dim) lambda d phi b
    l_step d_step p_step b_step 0 0 0 0.

End FresnelScale.

(** A stand-in for [Fresnel_Scale_Double] that keeps its four arguments
    apart, to run the loop on concrete arrays. *)
Definition sum_Fresnel_Scale (lambda d phi b : float) : float :=
  lambda + 2 * d + 4 * phi + 8 * b.

End Numerics.

(** ** More wrappers of the extension module *)

Module MoreWrappers.

Import CDouble CPython Wrappers.
Local Open Scope Z_scope.

(** *** OneVarFunctionForNumpy *)

(** [_array_from_one(x, y, dim, f)]:
    the loop over [i < dim] that stores [f(x[i])] into [y[i]]. *)
Definition array_from_one (x : list npy_scalar) (dim : Z)
  (f : npy_scalar -> npy_scalar) : list npy_scalar :=
  map f (firstn (Z.to_nat dim) x).

(** The body of the macro [OneVarFunctionForNumpy(FuncName, CName)] is,
    statement for statement, the function [besselJ0] of _bessel.h with
    [_array_from_one] as its loop and the routines [CName##_Float],
    [CName##_Double], ... in the places of [BesselJ0_Float],
    [BesselJ0_Double], ...; the last integer branch tests [NPY_ULONG] again
    and calls [CName##_Long_Long] there too. *)
Definition OneVarFunctionForNumpy
  (CName_Float CName_Double CName_Long_Double CName_Char CName_UChar
   CName_Short CName_UShort CName_Int CName_UInt CName_Long CName_ULong
   CName_Long_Long : npy_scalar -> npy_scalar)
  (args : list PyObject) : outcome :=
  besselJ0 CName_Float CName_Double CName_Long_Double CName_Char CName_UChar
    CName_Short CName_UShort CName_Int CName_UInt CName_Long CName_ULong
    CName_Long_Long array_from_one args.

(** The element types the one-variable wrappers convert. *)
Definition handled_type (t : NPY_TYPES) : bool :=
  match t with
  | NPY_FLOAT | NPY_DOUBLE | NPY_LONGDOUBLE
  | NPY_BYTE | NPY_UBYTE | NPY_SHORT | NPY_USHORT | NPY_INT | NPY_UINT
  | NPY_LONG | NPY_ULONG | NPY_LONGLONG => true
  | _ => false
  end.

(** The element type of the array a one-variable wrapper returns. *)
Definition output_type (t : NPY_TYPES) : NPY_TYPES :=
  match t with
  | NPY_FLOAT => NPY_FLOAT
  | NPY_LONGDOUBLE => NPY_LONGDOUBLE
  | _ => NPY_DOUBLE
  end.

(** The routine a one-variable wrapper applies to the elements of an array
    of type [t]. *)
Definition routine_for
  (CName_Float CName_Double CName_Long_Double CName_Char CName_UChar
   CName_Short CName_UShort CName_Int CName_UInt CName_Long CName_ULong
   CName_Long_Long : npy_scalar -> npy_scalar)
  (t : NPY_TYPES) : npy_scalar -> npy_scalar :=
  match t with
  | NPY_FLOAT => CName_Float
  | NPY_DOUBLE => CName_Double
  | NPY_LONGDOUBLE => CName_Long_Double
  | NPY_BYTE => CName_Char
  | NPY_UBYTE => CName_UChar
  | NPY_SHORT => CName_Short
  | NPY_USHORT => CName_UShort
  | NPY_INT => CName_Int
  | NPY_UINT => CName_UInt
  | NPY_LONG => CName_Long
  | NPY_ULONG => CName_ULong
  | _ => CName_Long_Long
  end.

(** *** max and min *)

Section MaxMin.

(** The [Max_*] and [Min_*] routines are defined in another translation
    unit. *)
Variables Max_Float Max_Double Max_Long_Double
  : list npy_scalar -> Z -> float.
Variables Max_Short Max_Int Max_Long Max_Long_Long
  : list npy_scalar -> Z -> Z.
Variables Min_Float Min_Double Min_Long_Double
  : list npy_scalar -> Z -> float.
Variables Min_Short Min_Int Min_Long Min_Long_Long
  : list npy_scalar -> Z -> Z.

(** The array branch of [max]; every [goto FAIL] is the TypeError. *)
Definition max_array (arr : PyArrayObject) : outcome :=
  if negb (PyArray_NDIM arr =? 1) then Raise PyExc_TypeError
  else
    let typenum := PyArray_TYPE arr in
    let dim := to_npy_int (hd 0 (PyArray_DIMS arr)) in
    let data := PyArray_DATA arr in
    if dim =? 0 then Raise PyExc_TypeError
    else
      match typenum with
      | NPY_FLOAT => Return (PyFloat (Max_Float data dim))
      | NPY_DOUBLE => Return (PyFloat (Max_Double data dim))
      | NPY_LONGDOUBLE => Return (PyFloat (Max_Long_Double data dim))
      | NPY_SHORT => Return (PyLong (Max_Short data dim))
      | NPY_INT => Return (PyLong (Max_Int data dim))
      | NPY_LONG => Return (PyLong (Max_Long data dim))
      | NPY_LONGLONG => Return (PyLong (Max_Long_Long data dim))
      | _ => Raise PyExc_TypeError
      end.

Definition max (args : list PyObject) : outcome :=
  match args with
  | [] => Undefined      (* PyTuple_GetItem(args, 0) is NULL *)
  | tuple :: _ =>
      if PyLong_Check tuple then
        match PyArg_ParseTuple [fmt_l] args with
        | Some [C_long max] => Return (PyLong max)
        | _ => Raise PyExc_TypeError
        end
      else if PyFloat_Check tuple then
        match PyArg_ParseTuple [fmt_d] args with
        | Some [C_double max] => Return (PyFloat max)
        | _ => Raise PyExc_TypeError
        end
      else
        match PyArg_ParseTuple [fmt_O_array] args with
        | Some [C_array arr] => max_array arr
        | _ => Raise PyExc_TypeError
        end
  end.

Definition min_array (arr : PyArrayObject) : outcome :=
  if negb (PyArray_NDIM arr =? 1) then Raise PyExc_TypeError
  else
    let typenum := PyArray_TYPE arr in
    let dim := to_npy_int (hd 0 (PyArray_DIMS arr)) in
    let data := PyArray_DATA arr in
    if dim =? 0 then Raise PyExc_TypeError
    else if type_eqb typenum NPY_FLOAT then
      Return (PyFloat (Min_Float data dim))
    else if type_eqb typenum NPY_DOUBLE then
      Return (PyFloat (Min_Double data dim))
    else if type_eqb typenum NPY_LONGDOUBLE then
      Return (PyFloat (Min_Long_Double data dim))
    else if type_eqb typenum NPY_SHORT then
      Return (PyLong (Min_Short data dim))
    else if type_eqb typenum NPY_INT then
      Return (PyLong (Min_Int data dim))
    else if type_eqb typenum NPY_LONG then
      Return (PyLong (Min_Long data dim))
    else if type_eqb typenum NPY_LONGLONG then
      Return (PyLong (Min_Long_Long data dim))
    else Raise PyExc_TypeError.

Definition min (args : list PyObject) : outcome :=
  match args with
  | [] => Undefined      (* PyTuple_GetItem(args, 0) is NULL *)
  | tuple :: _ =>
      if PyLong_Check tuple then
        match PyArg_ParseTuple [fmt_l] args with
        | Some [C_long min] => Return (PyLong min)
        | _ => Raise PyExc_TypeError
        end
      else if PyFloat_Check tuple then
        match PyArg_ParseTuple [fmt_d] args with
        | Some [C_double min] => Return (PyFloat min)
        | _ => Raise PyExc_TypeError
        end
      else
        match PyArg_ParseTuple [fmt_O_array] args with
        | Some [C_array arr] => min_array arr
        | _ => Raise PyExc_TypeError
        end
  end.

End MaxMin.

(** *** window_norm *)

Section WindowNorm.

(** The [Window_Normalization_*] routines are defined in another
    translation unit.  What the two integer routines return is handed to
    [PyLong_FromLong] in the array branches and to [PyFloat_FromDouble] in
    the scalar branch; their C return type is [number] here, with the two
    implicit conversions. *)
Variables Window_Normalization_Complex_Float
          Window_Normalization_Complex_Double
          Window_Normalization_Complex_Long_Double
          Window_Normalization_Float Window_Normalization_Double
          Window_Normalization_Long_Double
  : list npy_scalar -> Z -> float -> float -> float.
Variable number : Type.
Variable number_to_long : number -> Z.
Variable number_to_double : number -> float.
Variables Window_Normalization_Int Window_Normalization_Long
  : list npy_scalar -> Z -> float -> float -> number.

Definition window_norm_array (arr : PyArrayObject) (dx f_scale : float)
  : outcome :=
  if negb (PyArray_NDIM arr =? 1) then Raise PyExc_TypeError
  else
    let typenum := PyArray_TYPE arr in
    let dim := to_npy_int (hd 0 (PyArray_DIMS arr)) in
    let data := PyArray_DATA arr in
    if type_eqb typenum NPY_CFLOAT then
      Return (PyFloat (Window_Normalization_Complex_Float data dim dx f_scale))
    else if type_eqb typenum NPY_CDOUBLE then
      Return (PyFloat (Window_Normalization_Complex_Double data dim dx f_scale))
    else if type_eqb typenum NPY_CLONGDOUBLE then
      Return (PyFloat
                (Window_Normalization_Complex_Long_Double data dim dx f_scale))
    else if type_eqb typenum NPY_FLOAT then
      Return (PyFloat (Window_Normalization_Float data dim dx f_scale))
    else if type_eqb typenum NPY_DOUBLE then
      Return (PyFloat (Window_Normalization_Double data dim dx f_scale))
    else if type_eqb typenum NPY_LONGDOUBLE then
      Return (PyFloat (Window_Normalization_Long_Double data dim dx f_scale))
    else if type_eqb typenum NPY_INT then
      Return (PyLong
                (number_to_long (Window_Normalization_Int data dim dx f_scale)))
    else if type_eqb typenum NPY_LONG then
      Return (PyLong
                (number_to_long
                   (Window_Normalization_Long data dim dx f_scale)))
    else Raise PyExc_TypeError.

(** The two scalar branches do not look at what [PyArg_ParseTuple] returns:
    when it fails, at least one of [ker], [dx] and [f_scale] has never been
    written and is read by the call that follows. *)
Definition window_norm (args : list PyObject) : outcome :=
  match args with
  | [] => Undefined      (* PyTuple_GetItem(args, 0) is NULL *)
  | tuple :: _ =>
      if PyLong_Check tuple then
        match PyArg_ParseTuple [fmt_l; fmt_d; fmt_d] args with
        | Some [C_long ker; C_double dx; C_double f_scale] =>
            Return (PyFloat (number_to_double
                      (Window_Normalization_Long [npy_int ker] 1 dx f_scale)))
        | _ => Undefined
        end
      else if PyFloat_Check tuple then
        match PyArg_ParseTuple [fmt_d; fmt_d; fmt_d] args with
        | Some [C_double ker; C_double dx; C_double f_scale] =>
            Return (PyFloat
                      (Window_Normalization_Double [npy_real ker] 1 dx f_scale))
        | _ => Undefined
        end
      else
        match PyArg_ParseTuple [fmt_O_array; fmt_d; fmt_d] args with
        | Some [C_array arr; C_double dx; C_double f_scale] =>
            window_norm_array arr dx f_scale
        | _ => Raise PyExc_TypeError
        end
  end.

End WindowNorm.

(** *** The arguments of a well-typed call of fresnel_transform *)

Definition fresnel_args
  (T_in rho_km_vals F_km_vals phi_rad_vals kd_vals B_rad_vals D_km_vals
   w_km_vals : PyArrayObject) (perturb_list : PyObject)
  (start n_used wtype use_norm use_fwd use_fft order interp : Z)
  (ecc peri : float) : list PyObject :=
  [PyArray T_in; PyArray rho_km_vals; PyArray F_km_vals;
   PyArray phi_rad_vals; PyArray kd_vals; PyArray B_rad_vals;
   PyArray D_km_vals; PyArray w_km_vals; perturb_list;
   PyLong start; PyLong n_used; PyLong wtype; PyLong use_norm;
   PyLong use_fwd; PyLong use_fft; PyLong order; PyLong interp;
   PyFloat ecc; PyFloat peri].

(** [dlp] with another [D_km_vals]. *)
Definition with_D_km_vals (dlp : DLPObj) (data : list npy_scalar) : DLPObj :=
  {| start := start dlp; n_used := n_used dlp; wtype := wtype dlp;
     use_norm := use_norm dlp; use_fwd := use_fwd dlp; order := order dlp;
     ecc := ecc dlp; peri := peri dlp; interp := interp dlp;
     perturb := perturb dlp; arr_size := arr_size dlp; T_in := T_in dlp;
     rho_km_vals := rho_km_vals dlp; F_km_vals := F_km_vals dlp;
     phi_rad_vals := phi_rad_vals dlp; kd_vals := kd_vals dlp;
     B_rad_vals := B_rad_vals dlp; D_km_vals := data;
     w_km_vals := w_km_vals dlp; T_out := T_out dlp |}.

(** The sample call of [Wrappers], with [D_km_vals] and [perturb] left
    open. *)
Definition sample_call (D_km_vals : PyArrayObject) (perturb_list : PyObject)
  : list PyObject :=
  fresnel_args
    (complex_array [(1, 0); (1, 0)]%float) (real_array [87400; 87401]%float)
    (real_array [1; 1]%float) (real_array [0; 0]%float)
    (real_array [1; 1]%float) (real_array [0.5; 0.5]%float)
    D_km_vals (real_array [4; 4]%float) perturb_list
    0 1 0 1 0 0 0 0 PrimFloat.zero PrimFloat.zero.

(** A stand-in for the [Window_Normalization_*] routines. *)
Definition no_Window (data : list npy_scalar) (dim : Z) (dx f_scale : float)
  : float := PrimFloat.one.

(** Whether a wrapper came back with [NULL]. *)
Definition returns_NULL (o : outcome) : bool :=
  match o with
  | Done None _ => true
  | _ => false
  end.

End MoreWrappers.

(** * Properties *)

Module CDoubleFacts.

Import CDouble.
Local Open Scope float_scope.

(** *** Order facts on [spec_float]

    [SFcompare] is antisymmetric; everything the branches of the C code
    need about [<], [<=] and [==] follows from that. *)

Lemma SFcompare_antisym (a b : spec_float) :
  SFcompare b a = option_map CompOpp (SFcompare a b).
Proof.
  destruct a as [sa|sa| |sa ma ea], b as [sb|sb| |sb mb eb]; cbn;
    try reflexivity;
    try (destruct sa; reflexivity);
    try (destruct sb; reflexivity);
    try (destruct sa, sb; reflexivity).
  rewrite (Z.compare_antisym ea eb).
  change (Pos.compare_cont Eq mb ma) with (Pos.compare mb ma).
  change (Pos.compare_cont Eq ma mb) with (Pos.compare ma mb).
  rewrite (Pos.compare_antisym ma mb).
  destruct sa, sb; cbn; try reflexivity;
    destruct (ea ?= eb)%Z; cbn; try reflexivity;
    destruct (ma ?= mb)%positive; reflexivity.
Qed.

Lemma leb_true_ltb_false (a b : float) :
  (a <=? b) = true -> (b <? a) = false.
Proof.
  rewrite leb_spec, ltb_spec. unfold SFleb, SFltb.
  rewrite (SFcompare_antisym (Prim2SF a) (Prim2SF b)).
  destruct (SFcompare (Prim2SF a) (Prim2SF b)) as [[]|]; cbn; congruence.
Qed.




(** [fabs] forgets the sign, so it cannot tell [x] from [-x]. *)
Lemma abs_opp (x : float) : abs (- x) = abs x.
Proof.
  apply Prim2SF_inj. rewrite !abs_spec, opp_spec.
  destruct (Prim2SF x); reflexivity.
Qed.

(** *** Rounding facts

    Three facts about correctly rounded binary64 arithmetic that the window
    function relies on: [x * 1] is [x], [v / v] is [1] for a finite nonzero
    [v], and the quotient of two positive finite numbers is never negative
    and never NaN. *)

Lemma shr_1_nonneg mrs : (0 <= shr_m mrs)%Z -> (0 <= shr_m (shr_1 mrs))%Z.
Proof.
  destruct mrs as [m r s]; cbn.
  destruct m as [|[p|p|]|[p|p|]]; cbn; lia.
Qed.

Lemma iter_pos_invariant {A} (P : A -> Prop) (f : A -> A) :
  (forall a, P a -> P (f a)) -> forall p a, P a -> P (iter_pos f p a).
Proof.
  intros Hf. induction p as [p IH|p IH|]; cbn; intros a Ha; auto.
Qed.

Lemma shr_nonneg mrs e n :
  (0 <= shr_m mrs)%Z -> (0 <= shr_m (fst (shr mrs e n)))%Z.
Proof.
  intros H. destruct n as [|p|p]; cbn; trivial.
  now apply (iter_pos_invariant (fun r => (0 <= shr_m r)%Z) shr_1 shr_1_nonneg).
Qed.

Lemma shr_fexp_nonneg m e l :
  (0 <= m)%Z -> (0 <= shr_m (fst (shr_fexp prec emax m e l)))%Z.
Proof.
  intros H. unfold shr_fexp. apply shr_nonneg.
  destruct l as [|[]]; exact H.
Qed.

Lemma round_nearest_even_nonneg m l :
  (0 <= m)%Z -> (0 <= round_nearest_even m l)%Z.
Proof.
  intros H. destruct l as [|[]]; cbn; try lia.
  destruct (Z.even m); lia.
Qed.

Lemma binary_round_aux_signed s m e l :
  (0 <= m)%Z -> SFsigned s (binary_round_aux prec emax s m e l).
Proof.
  intros H. unfold binary_round_aux.
  pose proof (shr_fexp_nonneg m e l H) as H1.
  destruct (shr_fexp prec emax m e l) as [mrs' e']. cbn [fst] in H1.
  pose proof (shr_fexp_nonneg _ e' loc_Exact
                (round_nearest_even_nonneg _ (loc_of_shr_record mrs') H1))
    as H2.
  destruct (shr_fexp prec emax _ e' loc_Exact) as [mrs'' e'']. cbn [fst] in H2.
  destruct (shr_m mrs'') as [|p|p]; [exact eq_refl| |lia].
  destruct (e'' <=? emax - prec)%Z; exact eq_refl.
Qed.

Lemma SFdiv_core_nonneg m1 e1 m2 e2 :
  (0 <= fst (fst (SFdiv_core_binary prec emax (Zpos m1) e1 (Zpos m2) e2)))%Z.
Proof.
  unfold SFdiv_core_binary.
  set (s := (e1 - e2 - _)%Z).
  set (m' := match s with Z0 => _ | Zpos _ => _ | Zneg _ => _ end).
  assert (Hm' : (0 <= m')%Z).
  { subst m'. destruct s; try lia. apply Z.shiftl_nonneg. lia. }
  pose proof (Z_div_mod m' (Zpos m2) eq_refl) as Hd.
  destruct (Z.div_eucl m' (Zpos m2)) as [q r]. cbn.
  destruct Hd as [Hq Hr]. nia.
Qed.

Lemma is_pos_finite_inv (v : float) :
  is_pos_finite v = true -> exists m e, Prim2SF v = S754_finite false m e.
Proof.
  unfold is_pos_finite. rewrite andb_true_iff, !ltb_spec. unfold SFltb.
  change (Prim2SF 0) with (S754_zero false).
  change (Prim2SF infinity) with (S754_infinity false).
  destruct (Prim2SF v) as [s|s| |s m e]; cbn; intros [H1 H2];
    try discriminate.
  - destruct s; discriminate.
  - destruct s; try discriminate. eauto.
Qed.

Lemma div_pos_finite (a b : float) :
  is_pos_finite a = true -> is_pos_finite b = true -> (0 <=? a / b) = true.
Proof.
  intros Ha Hb.
  destruct (is_pos_finite_inv _ Ha) as (ma & ea & Ea).
  destruct (is_pos_finite_inv _ Hb) as (mb & eb & Eb).
  rewrite leb_spec, div_spec, Ea, Eb.
  change (Prim2SF 0) with (S754_zero false).
  unfold SF64div, SFdiv.
  pose proof (SFdiv_core_nonneg ma ea mb eb) as Hq.
  destruct (SFdiv_core_binary prec emax (Zpos ma) ea (Zpos mb) eb) as [[q e] l].
  cbn in Hq. cbn [xorb].
  pose proof (binary_round_aux_signed false q e l Hq) as Hs.
  destruct (binary_round_aux prec emax false q e l) as [s|s| |s m' e'];
    cbn in Hs |- *; subst; try reflexivity; contradiction.
Qed.

Lemma div_same (v : float) s m e :
  Prim2SF v = S754_finite s m e -> v / v = 1.
Proof.
  intros H. apply Prim2SF_inj. rewrite div_spec, H.
  unfold SF64div, SFdiv, SFdiv_core_binary.
  replace (Zdigits2 (Zpos m) + e - (Zdigits2 (Zpos m) + e))%Z with 0%Z by lia.
  replace (e - e)%Z with 0%Z by lia.
  change (Z.min (fexp prec emax 0) 0) with (-53)%Z.
  change (0 - -53)%Z with 53%Z. cbv iota.
  rewrite Z.shiftl_mul_pow2 by lia.
  assert (E : Z.div_eucl (Zpos m * 2 ^ 53) (Zpos m) = (2 ^ 53, 0)%Z).
  { pose proof (Z.div_mul (2 ^ 53) (Zpos m) ltac:(lia)) as Hq.
    pose proof (Z.mod_mul (2 ^ 53) (Zpos m) ltac:(lia)) as Hr.
    rewrite (Z.mul_comm (Zpos m)).
    unfold Z.div, Z.modulo in Hq, Hr.
    destruct (Z.div_eucl (2 ^ 53 * Zpos m) (Zpos m)) as [q r].
    now subst. }
  rewrite E.
  assert (L : new_location (Zpos m) 0 = loc_Exact).
  { unfold new_location. destruct (Z.even (Zpos m)); reflexivity. }
  rewrite L, xorb_nilpotent. reflexivity.
Qed.

Lemma is_finite_nonzero_inv (v : float) :
  is_finite_nonzero v = true -> exists s m e, Prim2SF v = S754_finite s m e.
Proof.
  unfold is_finite_nonzero, is_finite.
  rewrite andb_true_iff, negb_true_iff, ltb_spec, eqb_spec, abs_spec.
  unfold SFltb, SFeqb.
  change (Prim2SF 0) with (S754_zero false).
  change (Prim2SF infinity) with (S754_infinity false).
  destruct (Prim2SF v) as [s|s| |s m e]; cbn; intros [H1 H2];
    try discriminate.
  eauto.
Qed.

Lemma digits2_pos_shift52 (m : positive) :
  Zpos (digits2_pos (4503599627370496 * m)) = (Zpos (digits2_pos m) + 52)%Z.
Proof.
  cbn [Pos.mul digits2_pos]. rewrite !Pos2Z.inj_succ. lia.
Qed.

Lemma mul_1_r (x : float) : x * 1 = x.
Proof.
  apply Prim2SF_inj. rewrite mul_spec.
  pose proof (Prim2SF_valid x) as V.
  change (Prim2SF 1) with (S754_finite false 4503599627370496 (-52)).
  destruct (Prim2SF x) as [s|s| |s m e]; cbn [SF64mul SFmul];
    rewrite ?xorb_false_r; try reflexivity.
  cbn [valid_binary] in V. unfold bounded, canonical_mantissa in V.
  apply andb_prop in V. destruct V as [C B].
  apply Z.eqb_eq in C.
  unfold binary_round_aux, shr_fexp.
  rewrite (Pos.mul_comm m). unfold Zdigits2 at 1.
  rewrite digits2_pos_shift52.
  replace (Zpos (digits2_pos m) + 52 + (e + -52))%Z
    with (Zpos (digits2_pos m) + e)%Z by lia.
  rewrite C.
  replace (e - (e + -52))%Z with 52%Z by lia.
  cbn -[fexp Z.add Z.sub Z.leb].
  replace (e + -52 + 52)%Z with e by lia.
  rewrite C, Z.sub_diag. cbn -[Z.leb Z.sub].
  rewrite B. reflexivity.
Qed.

(** Halving a positive double gives a positive double, with one exception:
    half of the smallest subnormal is a tie between 0 and itself and rounds
    to 0. *)
Lemma digits2_pos_succ_le (p : positive) :
  (digits2_pos (Pos.succ p) <= Pos.succ (digits2_pos p))%positive.
Proof.
  induction p as [p IH|p IH|]; cbn [Pos.succ digits2_pos]; lia.
Qed.

Lemma fexp_lowest (q : positive) :
  (Zpos (digits2_pos q) <= 53)%Z ->
  (fexp prec emax (Zdigits2 (Zpos q) + -1074) - -1074 = 0)%Z.
Proof.
  intros H. unfold fexp, emin, Zdigits2.
  change (3 - emax - prec)%Z with (-1074)%Z. change prec with 53%Z. lia.
Qed.

Lemma round_lowest (sx : bool) (q : positive) :
  (Zpos (digits2_pos q) <= 53)%Z ->
  (let '(mrs, e) := shr_fexp prec emax (Zpos q) (-1074) loc_Exact in
   match shr_m mrs with
   | Z0 => S754_zero sx
   | Zpos m =>
       if (e <=? emax - prec)%Z then S754_finite sx m e else S754_infinity sx
   | Zneg _ => S754_nan
   end) = S754_finite sx q (-1074).
Proof.
  intros H. unfold shr_fexp. rewrite (fexp_lowest q H). reflexivity.
Qed.

Lemma half_finite_nonzero (m : positive) (e : Z) :
  valid_binary (S754_finite false m e) = true ->
  (m, e) <> (1%positive, (-1074)%Z) ->
  SFltb (S754_zero false)
    (SFmul prec emax (S754_finite false 4503599627370496 (-53))
       (S754_finite false m e)) = true.
Proof.
  intros V N.
  cbn [valid_binary] in V. unfold bounded, canonical_mantissa in V.
  apply andb_prop in V. destruct V as [C B].
  apply Z.eqb_eq in C. apply Z.leb_le in B.
  unfold fexp, emin in C.
  change (3 - emax - prec)%Z with (-1074)%Z in C. change prec with 53%Z in C.
  cbn [SFmul xorb]. unfold binary_round_aux.
  unfold shr_fexp at 1. unfold Zdigits2 at 1.
  replace (Zpos (digits2_pos (4503599627370496 * m)))
    with (Zpos (digits2_pos m) + 52)%Z
    by (cbn [Pos.mul digits2_pos]; rewrite !Pos2Z.inj_succ; lia).
  unfold fexp at 1, emin.
  change (3 - emax - prec)%Z with (-1074)%Z.
  destruct (Z.eq_dec e (-1074)) as [->|He].
  - (* the lowest binade: one bit is shifted out *)
    assert (Hd : (Zpos (digits2_pos m) <= 53)%Z) by lia.
    replace (Z.max (Zpos (digits2_pos m) + 52 + (-53 + -1074) - prec) (-1074)
             - (-53 + -1074))%Z with 53%Z by (change prec with 53%Z; lia).
    change (-53 + -1074)%Z with (-1127)%Z.
    cbn [shr shr_record_of_loc Pos.mul iter_pos shr_1 orb].
    change (-1127 + 53)%Z with (-1074)%Z.
    destruct m as [p|p|]; cbn [shr_m shr_r shr_s loc_of_shr_record
                                round_nearest_even];
      cbn [digits2_pos] in Hd; try rewrite Pos2Z.inj_succ in Hd.
    + (* odd mantissa: a tie, rounded to even *)
      destruct (Z.even (Zpos p)).
      * rewrite round_lowest by lia. reflexivity.
      * change (Zpos p + 1)%Z with (Zpos (p + 1)).
        rewrite round_lowest; [reflexivity|].
        rewrite Pos.add_1_r.
        pose proof (digits2_pos_succ_le p). lia.
    + rewrite round_lowest by lia. reflexivity.
    + congruence.
  - (* above the lowest binade the product is exact *)
    assert (Hd : Zpos (digits2_pos m) = 53%Z) by lia.
    replace (Z.max (Zpos (digits2_pos m) + 52 + (-53 + e) - prec) (-1074)
             - (-53 + e))%Z with 52%Z by (change prec with 53%Z; lia).
    cbn [shr shr_record_of_loc Pos.mul iter_pos shr_1 orb shr_m shr_r shr_s
         loc_of_shr_record round_nearest_even].
    unfold shr_fexp.
    replace (fexp prec emax (Zdigits2 (Zpos m) + (-53 + e + 52))
             - (-53 + e + 52))%Z with 0%Z.
    + cbn [shr shr_record_of_loc shr_m].
      destruct (-53 + e + 52 <=? emax - prec)%Z; reflexivity.
    + unfold fexp, emin, Zdigits2.
      change (3 - emax - prec)%Z with (-1074)%Z. change prec with 53%Z. lia.
Qed.

Lemma half_pos (W : float) :
  (0 <? W) = true -> W <> DBL_TRUE_MIN -> (0 <? 0.5 * W) = true.
Proof.
  intros HW HN. rewrite ltb_spec in HW |- *. rewrite mul_spec.
  change (Prim2SF 0) with (S754_zero false) in *.
  change (Prim2SF 0.5) with (S754_finite false 4503599627370496 (-53)).
  pose proof (Prim2SF_valid W) as V.
  destruct (Prim2SF W) as [s|s| |s m e] eqn:E; try discriminate HW.
  - destruct s; [discriminate HW|reflexivity].
  - destruct s; [discriminate HW|].
    apply half_finite_nonzero; [exact V|].
    intros [= -> ->]. apply HN. apply Prim2SF_inj. rewrite E. reflexivity.
Qed.

End CDoubleFacts.

Module CDoubleMoreFacts.

Import CDouble CDoubleFacts.
Local Open Scope float_scope.

(** *** Signs *)

Lemma mul_opp_opp (a b : float) : (- a) * (- b) = a * b.
Proof.
  apply Prim2SF_inj. rewrite !mul_spec, !opp_spec.
  destruct (Prim2SF a) as [sa|sa| |sa ma ea],
           (Prim2SF b) as [sb|sb| |sb mb eb];
    cbn [SF64mul SFmul SFopp]; try reflexivity;
    destruct sa, sb; reflexivity.
Qed.

Lemma binary_round_aux_opp (s : bool) (m e : Z) (l : location) :
  binary_round_aux prec emax (negb s) m e l =
  SFopp (binary_round_aux prec emax s m e l).
Proof.
  unfold binary_round_aux.
  destruct (shr_fexp prec emax m e l) as [mrs' e'].
  destruct (shr_fexp prec emax _ e' loc_Exact) as [mrs'' e''].
  destruct (shr_m mrs'') as [|p|p]; [reflexivity| |reflexivity].
  destruct (e'' <=? emax - prec)%Z; reflexivity.
Qed.

Lemma div_opp_r (a b : float) : a / (- b) = - (a / b).
Proof.
  apply Prim2SF_inj. rewrite opp_spec, !div_spec, opp_spec.
  destruct (Prim2SF a) as [sa|sa| |sa ma ea],
           (Prim2SF b) as [sb|sb| |sb mb eb];
    cbn [SF64div SFdiv SFopp]; try reflexivity;
    try (destruct sa, sb; reflexivity).
  destruct (SFdiv_core_binary prec emax (Zpos ma) ea (Zpos mb) eb)
    as [[q e] l].
  replace (xorb sa (negb sb)) with (negb (xorb sa sb))
    by (destruct sa, sb; reflexivity).
  apply binary_round_aux_opp.
Qed.

Lemma ltb_nan_l (x : float) : (nan <? x) = false.
Proof. rewrite ltb_spec. reflexivity. Qed.

(** A square is never negative: unless it is NaN its sign bit is clear. *)
Lemma square_signed (a : float) :
  Prim2SF a <> S754_nan -> SFsigned false (Prim2SF (a * a)).
Proof.
  intros Ha. rewrite mul_spec.
  destruct (Prim2SF a) as [s|s| |s m e]; cbn [SF64mul SFmul];
    try (destruct s; reflexivity); try congruence.
  rewrite xorb_nilpotent. apply binary_round_aux_signed. lia.
Qed.

Lemma add_signed (a b : float) :
  SFsigned false (Prim2SF a) -> SFsigned false (Prim2SF b) ->
  SFsigned false (Prim2SF (a + b)).
Proof.
  rewrite add_spec.
  destruct (Prim2SF a) as [sa|sa| |sa ma ea],
           (Prim2SF b) as [sb|sb| |sb mb eb];
    cbn [SFsigned]; intros Ha Hb; subst; try contradiction;
    cbn [SF64add SFadd SFsigned cond_Zopp]; try reflexivity.
  unfold binary_normalize.
  change (Zpos (fst (shl_align ma ea (Z.min ea eb))) +
          Zpos (fst (shl_align mb eb (Z.min ea eb))))%Z
    with (Zpos (fst (shl_align ma ea (Z.min ea eb)) +
                fst (shl_align mb eb (Z.min ea eb)))).
  unfold binary_round.
  destruct (shl_align _ _ _) as [mz ez].
  apply binary_round_aux_signed. lia.
Qed.

Lemma signed_false_nonneg (a : float) :
  SFsigned false (Prim2SF a) -> (0 <=? a) = true.
Proof.
  rewrite leb_spec. change (Prim2SF 0) with (S754_zero false).
  destruct (Prim2SF a) as [s|s| |s m e]; cbn [SFsigned]; intros H; subst;
    try contradiction; reflexivity.
Qed.

(** Nothing is below the half of a width that is not positive. *)
Lemma abs_below_half_nonpositive (x W : float) :
  (0 <? W) = false -> (abs x <? 0.5 * W) = false.
Proof.
  rewrite !ltb_spec, mul_spec, abs_spec.
  change (Prim2SF 0) with (S754_zero false).
  change (Prim2SF 0.5) with (S754_finite false 4503599627370496 (-53)).
  intros HW.
  destruct (Prim2SF W) as [s|s| |s m e].
  - destruct (Prim2SF x) as [sx|sx| |sx mx ex]; reflexivity.
  - destruct s; [|discriminate HW].
    destruct (Prim2SF x) as [sx|sx| |sx mx ex]; reflexivity.
  - destruct (Prim2SF x) as [sx|sx| |sx mx ex]; reflexivity.
  - destruct s; [|discriminate HW].
    cbn [SF64mul SFmul xorb].
    pose proof (binary_round_aux_signed true
                  (Zpos (4503599627370496 * m)) (-53 + e) loc_Exact
                  ltac:(lia)) as Hs.
    destruct (binary_round_aux prec emax true _ _ loc_Exact)
      as [s'|s'| |s' m' e']; cbn [SFsigned] in Hs; subst;
      try contradiction;
      destruct (Prim2SF x) as [sx|sx| |sx mx ex]; reflexivity.
Qed.

(** *** NaN *)

Lemma SFcompare_refl (a : spec_float) :
  a <> S754_nan -> SFcompare a a = Some Eq.
Proof.
  destruct a as [s|s| |s m e]; cbn [SFcompare]; try congruence;
    destruct s; try reflexivity; intros _;
    rewrite Z.compare_refl, ?Pos.compare_cont_refl; reflexivity.
Qed.

(** [x == x] holds of every double but NaN. *)
Lemma eqb_self (a : float) :
  (a =? a) = true <-> Prim2SF a <> S754_nan.
Proof.
  rewrite eqb_spec. unfold SFeqb. split.
  - intros H E. rewrite E in H. discriminate H.
  - intros H. now rewrite SFcompare_refl.
Qed.

Lemma eqb_self_false (a : float) :
  (a =? a) = false -> Prim2SF a = S754_nan.
Proof.
  intros H. destruct (Prim2SF a) eqn:E; try reflexivity;
    assert (N : Prim2SF a <> S754_nan) by (rewrite E; discriminate);
    apply eqb_self in N; congruence.
Qed.

Lemma leb_zero_nan (a : float) : Prim2SF a = S754_nan -> (0 <=? a) = false.
Proof. intros H. rewrite leb_spec, H. reflexivity. Qed.

Lemma square_nan (a : float) :
  Prim2SF a = S754_nan -> Prim2SF (a * a) = S754_nan.
Proof. intros H. rewrite mul_spec, H. reflexivity. Qed.

Lemma add_nan_l (a b : float) :
  Prim2SF a = S754_nan -> Prim2SF (a + b) = S754_nan.
Proof. intros H. rewrite add_spec, H. reflexivity. Qed.

Lemma add_nan_r (a b : float) :
  Prim2SF b = S754_nan -> Prim2SF (a + b) = S754_nan.
Proof.
  intros H. rewrite add_spec, H. destruct (Prim2SF a); reflexivity.
Qed.

(** *** Exact values

    Comparing two doubles is comparing the numbers they stand for. *)

Lemma digits2_pos_bounds (m : positive) :
  (2 ^ (Zpos (digits2_pos m) - 1) <= Zpos m < 2 ^ Zpos (digits2_pos m))%Z.
Proof.
  induction m as [p IH|p IH|]; cbn [digits2_pos];
    rewrite ?Pos2Z.inj_succ.
  - replace (Z.succ (Zpos (digits2_pos p)) - 1)%Z
      with (Z.succ (Zpos (digits2_pos p) - 1)) by lia.
    rewrite !Z.pow_succ_r by lia. lia.
  - replace (Z.succ (Zpos (digits2_pos p)) - 1)%Z
      with (Z.succ (Zpos (digits2_pos p) - 1)) by lia.
    rewrite !Z.pow_succ_r by lia. lia.
  - cbn. lia.
Qed.

(** A mantissa and exponent in canonical form: at most 53 bits, exactly 53
    above the lowest exponent. *)
Lemma bounded_inv (m : positive) (e : Z) :
  bounded prec emax m e = true ->
  (-1074 <= e)%Z /\ (Zpos m < 2 ^ 53)%Z /\
  ((-1074 < e)%Z -> (2 ^ 52 <= Zpos m)%Z).
Proof.
  unfold bounded, canonical_mantissa. intros H.
  apply andb_prop in H. destruct H as [C _]. apply Z.eqb_eq in C.
  unfold fexp, emin in C. change (3 - emax - prec)%Z with (-1074)%Z in C.
  change prec with 53%Z in C.
  pose proof (digits2_pos_bounds m) as [Hlo Hhi].
  assert (Hd : (Zpos (digits2_pos m) <= 53)%Z) by lia.
  split; [lia|]. split.
  - eapply Z.lt_le_trans; [exact Hhi|]. apply Z.pow_le_mono_r; lia.
  - intros He. assert (Zpos (digits2_pos m) = 53%Z) as E by lia.
    rewrite E in Hlo. exact Hlo.
Qed.

Lemma scaled_lt (m1 m2 : positive) (e1 e2 : Z) :
  bounded prec emax m1 e1 = true ->
  bounded prec emax m2 e2 = true ->
  (e1 < e2)%Z ->
  (Zpos m1 * 2 ^ (e1 + 1074) < Zpos m2 * 2 ^ (e2 + 1074))%Z.
Proof.
  intros B1 B2 He.
  destruct (bounded_inv _ _ B1) as (L1 & U1 & _).
  destruct (bounded_inv _ _ B2) as (L2 & _ & N2).
  specialize (N2 ltac:(lia)).
  assert (P1 : (0 < 2 ^ (e1 + 1074))%Z) by (apply Z.pow_pos_nonneg; lia).
  assert (P2 : (2 ^ (e1 + 1074 + 1) <= 2 ^ (e2 + 1074))%Z)
    by (apply Z.pow_le_mono_r; lia).
  rewrite Z.pow_add_r in P2 by lia. change (2 ^ 1)%Z with 2%Z in P2.
  change (2 ^ 53)%Z with (2 * 2 ^ 52)%Z in U1.
  nia.
Qed.

Lemma SFcompare_exact (m1 m2 : positive) (e1 e2 : Z) :
  bounded prec emax m1 e1 = true ->
  bounded prec emax m2 e2 = true ->
  SFcompare (S754_finite false m1 e1) (S754_finite false m2 e2) =
  Some (Zpos m1 * 2 ^ (e1 + 1074) ?= Zpos m2 * 2 ^ (e2 + 1074))%Z.
Proof.
  intros B1 B2. cbn [SFcompare]. f_equal.
  destruct (e1 ?= e2)%Z eqn:E.
  - apply Z.compare_eq in E. subst e2.
    destruct (bounded_inv _ _ B1) as (L1 & _ & _).
    change (Pos.compare_cont Eq m1 m2) with (Zpos m1 ?= Zpos m2)%Z.
    apply Zmult_compare_compat_r, Z.lt_gt, Z.pow_pos_nonneg; lia.
  - symmetry. apply Z.compare_lt_iff. apply scaled_lt; assumption.
  - symmetry. apply Z.compare_gt_iff. apply scaled_lt; try assumption.
    apply Z.compare_gt_iff in E. exact E.
Qed.

(** Halving a double of at least 2^-1021 is exact. *)
Lemma half_exact (m : positive) (e : Z) :
  valid_binary (S754_finite false m e) = true ->
  (-1074 < e)%Z ->
  SFmul prec emax (S754_finite false 4503599627370496 (-53))
    (S754_finite false m e) = S754_finite false m (e - 1).
Proof.
  intros V He.
  cbn [valid_binary] in V. unfold bounded, canonical_mantissa in V.
  apply andb_prop in V. destruct V as [C B].
  apply Z.eqb_eq in C.
  unfold fexp, emin in C.
  change (3 - emax - prec)%Z with (-1074)%Z in C. change prec with 53%Z in C.
  cbn [SFmul xorb]. unfold binary_round_aux.
  unfold shr_fexp at 1. unfold Zdigits2 at 1.
  rewrite digits2_pos_shift52.
  unfold fexp at 1, emin.
  change (3 - emax - prec)%Z with (-1074)%Z.
  assert (Hd : Zpos (digits2_pos m) = 53%Z) by lia.
  replace (Z.max (Zpos (digits2_pos m) + 52 + (-53 + e) - prec) (-1074)
           - (-53 + e))%Z with 52%Z by (change prec with 53%Z; lia).
  cbn [shr shr_record_of_loc Pos.mul iter_pos shr_1 orb shr_m shr_r shr_s
       loc_of_shr_record round_nearest_even].
  unfold shr_fexp.
  replace (fexp prec emax (Zdigits2 (Zpos m) + (-53 + e + 52))
           - (-53 + e + 52))%Z with 0%Z
    by (unfold fexp, emin, Zdigits2;
        change (3 - emax - prec)%Z with (-1074)%Z; change prec with 53%Z;
        lia).
  cbn [shr shr_record_of_loc shr_m].
  replace (-53 + e + 52)%Z with (e - 1)%Z by lia.
  apply Z.leb_le in B.
  replace (e - 1 <=? emax - prec)%Z with true
    by (symmetry; apply Z.leb_le; lia).
  reflexivity.
Qed.

Lemma exact_abs (x : float) : exact (abs x) = option_map Z.abs (exact x).
Proof.
  unfold exact. rewrite abs_spec.
  destruct (Prim2SF x) as [s|s| |s m e]; cbn [SFabs option_map];
    try reflexivity.
  f_equal. assert (0 < 2 ^ (e + 1074) \/ 2 ^ (e + 1074) = 0)%Z as [P|P].
  { pose proof (Z.pow_nonneg 2 (e + 1074) ltac:(lia)). lia. }
  - destruct s; cbn [cond_Zopp]; lia.
  - rewrite P. lia.
Qed.

End CDoubleMoreFacts.

(** *** The constant RCPR_EULER_E and 1/e

    1/e is below the double nearest to it, which is what the macro
    [RCPR_EULER_E] denotes: a lower bound of e from the first 21 terms of
    its series is enough to tell. *)

Module RealFacts.

Import CDouble.
Local Open Scope R_scope.





End RealFacts.

Module SpecialFunctionsFacts.

Import CDouble CDoubleFacts CDoubleMoreFacts SpecialFunctions.
Local Open Scope float_scope.

Section Libm.

Variables exp log : float -> float.
Variable I0 : float -> float.

(** The guard of the iterative branch fails as soon as [x] is not above
    [-1/e]. *)
Lemma LambertW_outside (fuel : nat) (x : float) :
  (- RCPR_EULER_E <? x) = false ->
  LambertW_Double exp log fuel x =
    if x =? - RCPR_EULER_E then Some (-1)
    else if x <? - RCPR_EULER_E then Some nan
    else Some infinity.
Proof.
  intros H. unfold LambertW_Double. rewrite H, andb_false_r. reflexivity.
Qed.


(** C5.  LambertW_Double applied to NaN does not signal a domain error: all
    four comparisons with NaN are false, so the call falls through to the
    last [else] and returns +INFINITY. *)
Theorem LambertW_nan (fuel : nat) :
  LambertW_Double exp log fuel nan = Some infinity.
Proof. reflexivity. Qed.

(** Resolution_Inverse_Double maps NaN to 0.0 by the same fall-through. *)
Lemma Resolution_Inverse_nan (fuel : nat) :
  Resolution_Inverse_Double exp log fuel nan = Some 0.
Proof. reflexivity. Qed.



(** The test the code makes, [fabs(x) < 0.5*W].  The product is exact for
    every [W] of at least 2^-1021, and the test fails for every [W] that is
    not positive: there it is the test [|x| < W/2] on the numbers
    themselves. *)
Lemma half_width_test_exact (x W : float) :
  (0 <? W) = false \/ (0x1p-1021 <=? W) = true ->
  (abs x <? 0.5 * W) = inside_half_width x W.
Proof.
  intros [HW|HW].
  - rewrite (abs_below_half_nonpositive x W HW). symmetry.
    unfold inside_half_width, exact.
    rewrite ltb_spec in HW. rewrite eqb_spec.
    change (Prim2SF 0) with (S754_zero false) in HW.
    change (Prim2SF infinity) with (S754_infinity false).
    pose proof (Prim2SF_valid W) as V.
    destruct (Prim2SF x) as [sx|sx| |sx mx ex];
      destruct (Prim2SF W) as [s|s| |s m e]; try reflexivity;
      try (destruct s; try discriminate HW; reflexivity);
      try (apply Z.ltb_ge; lia).
    + destruct s; [|discriminate HW]. apply Z.ltb_ge. cbn [cond_Zopp].
      destruct (bounded_inv _ _ V) as (L & _ & _).
      pose proof (Z.pow_pos_nonneg 2 (e + 1074) ltac:(lia) ltac:(lia)).
      assert (- Zpos m * 2 ^ (e + 1074) <= 0)%Z by nia. lia.
    + destruct s; [|discriminate HW]. apply Z.ltb_ge. cbn [cond_Zopp].
      destruct (bounded_inv _ _ V) as (L & _ & _).
      pose proof (Z.pow_pos_nonneg 2 (e + 1074) ltac:(lia) ltac:(lia)).
      assert (- Zpos m * 2 ^ (e + 1074) <= 0)%Z by nia. lia.
  - unfold inside_half_width.
    pose proof (exact_abs x) as EA.
    rewrite ltb_spec, mul_spec. rewrite leb_spec in HW.
    change (Prim2SF 0x1p-1021) with (S754_finite false 4503599627370496 (-1073))
      in HW.
    change (Prim2SF 0.5) with (S754_finite false 4503599627370496 (-53)).
    pose proof (Prim2SF_valid W) as V.
    pose proof (Prim2SF_valid (abs x)) as Vx.
    unfold exact in *. rewrite eqb_spec.
    change (Prim2SF infinity) with (S754_infinity false).
    rewrite abs_spec in *.
    destruct (Prim2SF W) as [s|s| |s m e]; try discriminate HW.
    + (* W = +inf *)
      destruct s; [discriminate HW|].
      destruct (Prim2SF x) as [sx|sx| |sx mx ex]; reflexivity.
    + destruct s; [discriminate HW|].
      assert (He : (-1074 < e)%Z).
      { unfold SFleb in HW. cbn [SFcompare] in HW.
        destruct (-1073 ?= e)%Z eqn:E; try discriminate HW.
        - apply Z.compare_eq in E. lia.
        - change (-1073 < e)%Z in E. lia. }
      unfold SF64mul. rewrite (half_exact m e V He).
      assert (Vh : bounded prec emax m (e - 1) = true).
      { cbn [valid_binary] in V. unfold bounded, canonical_mantissa in *.
        apply andb_prop in V. destruct V as [C B].
        apply Z.eqb_eq in C. apply Z.leb_le in B.
        unfold fexp, emin in *.
        change (3 - emax - prec)%Z with (-1074)%Z in *.
        change prec with 53%Z in *.
        apply andb_true_intro. split; [apply Z.eqb_eq|apply Z.leb_le]; lia. }
      destruct (Prim2SF x) as [sx|sx| |sx mx ex];
        cbn [SFabs option_map] in *; try reflexivity.
      * symmetry. apply Z.ltb_lt.
        pose proof (Z.pow_pos_nonneg 2 (e + 1074) ltac:(lia) ltac:(lia)).
        cbn [cond_Zopp]. lia.
      * injection EA as <-. cbn [valid_binary] in Vx.
        unfold SFltb. rewrite (SFcompare_exact _ _ _ _ Vx Vh).
        cbn [cond_Zopp]. unfold Z.ltb.
        replace (e + 1074)%Z with (Z.succ (e - 1 + 1074)) by lia.
        rewrite Z.pow_succ_r by lia.
        replace (Z.pos m * (2 * 2 ^ (e - 1 + 1074)))%Z
          with (2 * (Z.pos m * 2 ^ (e - 1 + 1074)))%Z by lia.
        rewrite <- Zmult_compare_compat_l by lia. reflexivity.
Qed.

Lemma Kaiser_Bessel_alpha_zero_test (x W alpha : float) :
  (alpha =? 0) = true ->
  rssringoccs_Kaiser_Bessel_Double I0 x W alpha =
    if abs x <? 0.5 * W then 1 else 0.
Proof.
  intros H. unfold rssringoccs_Kaiser_Bessel_Double. rewrite H. reflexivity.
Qed.

(** C7.  With [alpha == 0] the Kaiser-Bessel window is 1 when
    [fabs(x) < 0.5*W] and 0 otherwise, for every x and W; and for every
    [W] that is not a positive number below 2^-1021 that is the rectangular
    window: 1 when [|x| < W/2] and 0 otherwise. *)
Theorem Kaiser_Bessel_alpha_zero (x W alpha : float) :
  (alpha =? 0) = true ->
  rssringoccs_Kaiser_Bessel_Double I0 x W alpha =
    (if abs x <? 0.5 * W then 1 else 0) /\
  ((0 <? W) = false \/ (0x1p-1021 <=? W) = true ->
   rssringoccs_Kaiser_Bessel_Double I0 x W alpha =
     if inside_half_width x W then 1 else 0).
Proof.
  intros H. split; [exact (Kaiser_Bessel_alpha_zero_test x W alpha H)|].
  intros HW. rewrite (Kaiser_Bessel_alpha_zero_test x W alpha H).
  now rewrite (half_width_test_exact x W HW).
Qed.

Lemma Kaiser_Bessel_outside (x W alpha : float) :
  (abs x <? 0.5 * W) = false ->
  rssringoccs_Kaiser_Bessel_Double I0 x W alpha = 0.
Proof.
  intros H. unfold rssringoccs_Kaiser_Bessel_Double. rewrite H.
  destruct (alpha =? 0); reflexivity.
Qed.

Lemma Kaiser_Bessel_even (x W alpha : float) :
  rssringoccs_Kaiser_Bessel_Double I0 (- x) W alpha =
  rssringoccs_Kaiser_Bessel_Double I0 x W alpha.
Proof.
  unfold rssringoccs_Kaiser_Bessel_Double. rewrite abs_opp. reflexivity.
Qed.

(** At the centre the square root is exactly 1, whatever the width. *)
Lemma Kaiser_Bessel_arg_centre (W : float) :
  (0 <? 0.5 * W) = true -> Kaiser_Bessel_arg (abs 0) W = 1.
Proof.
  intros H. unfold Kaiser_Bessel_arg.
  assert (E : Prim2SF (2 * abs 0 / W) = S754_zero false \/
              Prim2SF (2 * abs 0 / W) = S754_zero true).
  { rewrite ltb_spec, mul_spec in H. rewrite div_spec.
    change (Prim2SF (2 * abs 0)) with (S754_zero false).
    change (Prim2SF 0) with (S754_zero false) in H.
    change (Prim2SF 0.5) with (S754_finite false 4503599627370496 (-53)) in H.
    destruct (Prim2SF W) as [s|s| |s m e]; cbn in H |- *; try discriminate;
      destruct s; auto. }
  assert (Z0 : 2 * abs 0 / W = 0 \/ 2 * abs 0 / W = -0).
  { destruct E as [E|E]; [left|right]; apply Prim2SF_inj; rewrite E;
      reflexivity. }
  destruct Z0 as [-> | ->]; reflexivity.
Qed.

Lemma Kaiser_Bessel_centre (W alpha : float) :
  (0 <? W) = true -> W <> DBL_TRUE_MIN ->
  ((alpha =? 0) = false -> is_finite_nonzero (I0 (alpha * ONE_PI)) = true) ->
  rssringoccs_Kaiser_Bessel_Double I0 0 W alpha = 1.
Proof.
  intros HW0 HN HI. pose proof (half_pos W HW0 HN) as HW.
  unfold rssringoccs_Kaiser_Bessel_Double.
  change (abs 0 <? 0.5 * W) with (0 <? 0.5 * W). rewrite HW.
  destruct (alpha =? 0); [reflexivity|].
  rewrite (Kaiser_Bessel_arg_centre W HW), mul_1_r.
  destruct (is_finite_nonzero_inv _ (HI eq_refl)) as (s & m & e & E).
  exact (div_same _ s m e E).
Qed.

Lemma Kaiser_Bessel_nonneg (x W alpha : float) :
  ((alpha =? 0) = false -> (abs x <? 0.5 * W) = true ->
     is_pos_finite (I0 (alpha * ONE_PI * Kaiser_Bessel_arg (abs x) W)) = true /\
     is_pos_finite (I0 (alpha * ONE_PI)) = true) ->
  (0 <=? rssringoccs_Kaiser_Bessel_Double I0 x W alpha) = true.
Proof.
  intros HI. unfold rssringoccs_Kaiser_Bessel_Double.
  destruct (alpha =? 0).
  - destruct (abs x <? 0.5 * W); reflexivity.
  - destruct (abs x <? 0.5 * W); [|reflexivity].
    destruct (HI eq_refl eq_refl) as [H1 H2].
    now apply div_pos_finite.
Qed.

(** C6.  The window axioms as the double-precision code satisfies them.
    For every x, W and alpha: the window is 0 whenever [|x| >= 0.5*W]; it
    is even; for every [W > 0] other than the smallest positive double its
    value at 0 is 1 (for [alpha != 0]: provided the Bessel value
    [I0(alpha*pi)] is finite and nonzero); and it is nonnegative (for
    [alpha != 0] inside the support: provided both Bessel values of the
    quotient are finite and positive). *)
Theorem Kaiser_Bessel_window_axioms (x W alpha : float) :
  ((0.5 * W <=? abs x) = true ->
   rssringoccs_Kaiser_Bessel_Double I0 x W alpha = 0) /\
  rssringoccs_Kaiser_Bessel_Double I0 (- x) W alpha =
    rssringoccs_Kaiser_Bessel_Double I0 x W alpha /\
  ((0 <? W) = true -> W <> DBL_TRUE_MIN ->
   ((alpha =? 0) = false -> is_finite_nonzero (I0 (alpha * ONE_PI)) = true) ->
   rssringoccs_Kaiser_Bessel_Double I0 0 W alpha = 1) /\
  (((alpha =? 0) = false -> (abs x <? 0.5 * W) = true ->
     is_pos_finite (I0 (alpha * ONE_PI * Kaiser_Bessel_arg (abs x) W)) = true /\
     is_pos_finite (I0 (alpha * ONE_PI)) = true) ->
   (0 <=? rssringoccs_Kaiser_Bessel_Double I0 x W alpha) = true).
Proof.
  repeat split.
  - intros H. apply Kaiser_Bessel_outside. now apply leb_true_ltb_false.
  - apply Kaiser_Bessel_even.
  - apply Kaiser_Bessel_centre.
  - apply Kaiser_Bessel_nonneg.
Qed.

(** *** The Halley iteration *)

(** Inside the test [(x < INFINITY) && (x > -RCPR_EULER_E)] the starting
    guess is always made. *)
Lemma LambertW_guess_defined (x : float) :
  (x <? infinity) && (- RCPR_EULER_E <? x) = true ->
  LambertW_guess log x =
    inl (if 2 <? x then log (x / log x) else x).
Proof.
  intros H. apply andb_prop in H. destruct H as [_ H].
  unfold LambertW_guess. rewrite H. destruct (2 <? x); reflexivity.
Qed.




(** The product [x*exp(x)] at [x = -1 + 2^-30] with a correctly rounded
    [exp]: the double nearest -1/e. *)
Lemma near_branch_product :
  -0x1.fffffff8p-1 * 0x1.78b56368b1c91p-2 = - RCPR_EULER_E.
Proof. reflexivity. Qed.

(** So with any [exp] that rounds correctly at [-1 + 2^-30], a point of
    [-1, 50], [LambertW(x*exp(x))] is -1 there, 2^-30 away from [x]. *)
Lemma LambertW_near_branch (fuel : nat) :
  exp (-0x1.fffffff8p-1) = 0x1.78b56368b1c91p-2 ->
  LambertW_Double exp log fuel
    (-0x1.fffffff8p-1 * exp (-0x1.fffffff8p-1)) = Some (-1).
Proof.
  intros ->. rewrite near_branch_product.
  apply (LambertW_outside fuel (- RCPR_EULER_E) eq_refl).
Qed.

End Libm.

End SpecialFunctionsFacts.

(** Runs of the special functions on concrete numbers, with the series
    stand-ins for [exp], [log] and the Bessel function. *)
Module SpecialFunctionsRuns.

Import CDouble SpecialFunctions SpecialFunctionsFacts.
Local Open Scope float_scope.

Example LambertW_one :
  LambertW_Double exp_series log_series 20 1 = Some 0x1.22609af8e9657p-1.
Proof. vm_compute. reflexivity. Qed.




(** At [x = 2] the value returned does invert the relation of the
    specification, to one unit in the last place. *)
Example Resolution_Inverse_two :
  resolution exp_rounded 0x1.97f7c26efbf28p+0 = 0x1.0000000000001p+1.
Proof. vm_compute. reflexivity. Qed.


Lemma Kaiser_Bessel_alpha_zero_witness :
  rssringoccs_Kaiser_Bessel_Double Bessel_I0_series 3 20 0 = 1 /\
  rssringoccs_Kaiser_Bessel_Double Bessel_I0_series 10 20 (-0) = 0 /\
  rssringoccs_Kaiser_Bessel_Double Bessel_I0_series 3 (-20) 0 = 0.
Proof.
  split; [|split].
  - rewrite (proj2 (Kaiser_Bessel_alpha_zero Bessel_I0_series 3 20 0 eq_refl)
               (or_intror eq_refl)).
    reflexivity.
  - rewrite (proj2 (Kaiser_Bessel_alpha_zero Bessel_I0_series 10 20 (-0)
                      eq_refl) (or_intror eq_refl)).
    reflexivity.
  - rewrite (proj2 (Kaiser_Bessel_alpha_zero Bessel_I0_series 3 (-20) 0
                      eq_refl) (or_introl eq_refl)).
    reflexivity.
Defined.

(** The claim of C7 fails for widths in the subnormal range, where [0.5*W]
    is rounded.  At [x = 0] and [W = 2^-1074], and at [x = 2 * 2^-1074] and
    [W = 5 * 2^-1074], [|x| < W/2] holds and the window with [alpha = 0]
    returns 0: the halves round to 0 and to [2 * 2^-1074]. *)
Lemma Kaiser_Bessel_rect_subnormal_width :
  inside_half_width 0 0x1p-1074 = true /\
  rssringoccs_Kaiser_Bessel_Double Bessel_I0_series 0 0x1p-1074 0 = 0 /\
  inside_half_width 0x1p-1073 0x1.4p-1072 = true /\
  rssringoccs_Kaiser_Bessel_Double Bessel_I0_series 0x1p-1073 0x1.4p-1072 0
    = 0.
Proof. vm_compute. repeat split. Qed.



(** The claim of C6 fails at the centre of a window whose width is the
    smallest positive double: [W > 0] and [alpha >= 0] hold, but [0.5*W]
    rounds to 0, the test [|x| < 0.5*W] fails at [x = 0] and the window
    returns 0 there instead of 1. *)
Lemma Kaiser_Bessel_centre_subnormal_width :
  (0 <? DBL_TRUE_MIN) = true /\ (0 <=? 0) = true /\
  rssringoccs_Kaiser_Bessel_Double Bessel_I0_series 0 DBL_TRUE_MIN 0 = 0 /\
  rssringoccs_Kaiser_Bessel_Double Bessel_I0_series 0 DBL_TRUE_MIN 0 <> 1.
Proof.
  split; [|split; [|split]]; try (vm_compute; reflexivity).
  intros H. apply (f_equal Prim2SF) in H. vm_compute in H. discriminate H.
Qed.

Lemma Kaiser_Bessel_window_axioms_witness :
  rssringoccs_Kaiser_Bessel_Double Bessel_I0_series 12 20 2.5 = 0 /\
  rssringoccs_Kaiser_Bessel_Double Bessel_I0_series (- 3) 20 2.5 =
    rssringoccs_Kaiser_Bessel_Double Bessel_I0_series 3 20 2.5 /\
  rssringoccs_Kaiser_Bessel_Double Bessel_I0_series 0 20 2.5 = 1 /\
  (0 <=? rssringoccs_Kaiser_Bessel_Double Bessel_I0_series 3 20 2.5) = true.
Proof.
  split; [|split; [|split]].
  - apply (proj1 (Kaiser_Bessel_window_axioms Bessel_I0_series 12 20 2.5)).
    vm_compute. reflexivity.
  - apply (proj1 (proj2
             (Kaiser_Bessel_window_axioms Bessel_I0_series 3 20 2.5))).
  - apply (proj1 (proj2 (proj2
             (Kaiser_Bessel_window_axioms Bessel_I0_series 0 20 2.5)))).
    + vm_compute. reflexivity.
    + intros H. apply (f_equal Prim2SF) in H. vm_compute in H. discriminate H.
    + intros _. vm_compute. reflexivity.
  - apply (proj2 (proj2 (proj2
             (Kaiser_Bessel_window_axioms Bessel_I0_series 3 20 2.5)))).
    intros _ _. split; vm_compute; reflexivity.
Defined.

End SpecialFunctionsRuns.

Module WrappersFacts.

Import CDouble CPython Wrappers.
Local Open Scope Z_scope.

(** *** besselJ0 *)

Section BesselJ0.

Variables BesselJ0_Float BesselJ0_Double BesselJ0_Long_Double
          BesselJ0_Char BesselJ0_UChar BesselJ0_Short BesselJ0_UShort
          BesselJ0_Int BesselJ0_UInt BesselJ0_Long BesselJ0_ULong
          BesselJ0_Long_Long : npy_scalar -> npy_scalar.

Variable get_one_real_from_one_real :
  list npy_scalar -> Z -> (npy_scalar -> npy_scalar) -> list npy_scalar.

(** The second test for [NPY_ULONG] can never succeed: an [unsigned long]
    array is taken by the first one. *)
Lemma besselJ0_integer_ulong (data : list npy_scalar) (dim : Z) :
  besselJ0_integer BesselJ0_Char BesselJ0_UChar BesselJ0_Short
    BesselJ0_UShort BesselJ0_Int BesselJ0_UInt BesselJ0_Long
    BesselJ0_ULong BesselJ0_Long_Long get_one_real_from_one_real
    NPY_ULONG data dim
  = Some (get_one_real_from_one_real data dim BesselJ0_ULong).
Proof. reflexivity. Qed.

(** C9.  In besselJ0 the integer branches test [NPY_ULONG] twice and
    [NPY_ULONGLONG] never.  For every one-dimensional array of type
    [NPY_ULONGLONG] (C [unsigned long long]) no conversion branch matches
    and the call ends in the final [else]: it returns [NULL] with a
    TypeError set instead of computing J0.  A one-dimensional array of type
    [NPY_ULONG] (C [unsigned long], the unsigned 64-bit type where [long]
    has 64 bits) is taken by the first of the two tests and converted with
    [BesselJ0_ULong]. *)
Theorem besselJ0_ulonglong_type_error (x : PyArrayObject) :
  PyArray_NDIM x = 1 ->
  (PyArray_TYPE x = NPY_ULONGLONG ->
   besselJ0_integer BesselJ0_Char BesselJ0_UChar BesselJ0_Short
     BesselJ0_UShort BesselJ0_Int BesselJ0_UInt BesselJ0_Long
     BesselJ0_ULong BesselJ0_Long_Long get_one_real_from_one_real
     (PyArray_TYPE x) (PyArray_DATA x) (hd 0 (PyArray_DIMS x)) = None /\
   besselJ0 BesselJ0_Float BesselJ0_Double BesselJ0_Long_Double
     BesselJ0_Char BesselJ0_UChar BesselJ0_Short BesselJ0_UShort
     BesselJ0_Int BesselJ0_UInt BesselJ0_Long BesselJ0_ULong
     BesselJ0_Long_Long get_one_real_from_one_real [PyArray x]
   = Raise PyExc_TypeError) /\
  (PyArray_TYPE x = NPY_ULONG ->
   let dim := hd 0 (PyArray_DIMS x) in
   besselJ0 BesselJ0_Float BesselJ0_Double BesselJ0_Long_Double
     BesselJ0_Char BesselJ0_UChar BesselJ0_Short BesselJ0_UShort
     BesselJ0_Int BesselJ0_UInt BesselJ0_Long BesselJ0_ULong
     BesselJ0_Long_Long get_one_real_from_one_real [PyArray x]
   = Done (Some (new_array NPY_DOUBLE dim
                   (get_one_real_from_one_real (PyArray_DATA x) dim
                      BesselJ0_ULong)))
          (if dim =? 0 then Some PyExc_TypeError else None)).
Proof.
  intros Hn. unfold besselJ0, PyArray_NDIM in *.
  cbn [PyArg_ParseTuple convert].
  destruct (PyArray_DIMS x) as [|dim [|dim' dims]]; cbn [length] in Hn;
    try lia.
  split; intros Ht; rewrite Ht; [split|]; reflexivity.
Qed.

End BesselJ0.

(** *** compute_norm_eq *)

Section ComputeNormEq.

Variables Normeq_Float Normeq_Double Normeq_Long_Double Normeq_Short
          Normeq_Int Normeq_Long Normeq_Long_Long
  : list npy_scalar -> Z -> float.

(** C10, as the code has it.  Given one Python int that fits a C [long],
    compute_norm_eq returns it unchanged; an int outside the range of
    [long] makes [PyArg_ParseTuple] fail and raises TypeError; given one
    Python float it returns that float unchanged. *)
Theorem compute_norm_eq_scalar :
  (forall n : Z, LONG_MIN <= n <= LONG_MAX ->
     compute_norm_eq Normeq_Float Normeq_Double Normeq_Long_Double
       Normeq_Short Normeq_Int Normeq_Long Normeq_Long_Long [PyLong n]
     = Return (PyLong n)) /\
  (forall n : Z, n < LONG_MIN \/ LONG_MAX < n ->
     compute_norm_eq Normeq_Float Normeq_Double Normeq_Long_Double
       Normeq_Short Normeq_Int Normeq_Long Normeq_Long_Long [PyLong n]
     = Raise PyExc_TypeError) /\
  (forall d : float,
     compute_norm_eq Normeq_Float Normeq_Double Normeq_Long_Double
       Normeq_Short Normeq_Int Normeq_Long Normeq_Long_Long [PyFloat d]
     = Return (PyFloat d)).
Proof.
  split; [|split].
  - intros n [Hlo Hhi]. unfold compute_norm_eq.
    cbn [PyLong_Check PyArg_ParseTuple convert].
    apply Z.leb_le in Hlo, Hhi. rewrite Hlo, Hhi. reflexivity.
  - intros n Hn. unfold compute_norm_eq.
    cbn [PyLong_Check PyArg_ParseTuple convert].
    destruct Hn as [Hn|Hn].
    + apply Z.leb_gt in Hn. rewrite Hn. reflexivity.
    + apply Z.leb_gt in Hn. rewrite Hn, andb_false_r. reflexivity.
  - intros d. reflexivity.
Qed.

End ComputeNormEq.

(** *** fresnel_transform *)

Lemma perturb_all_zero_forallb (p : list float) :
  perturb_all_zero p = forallb fl_zero (firstn 5 p).
Proof.
  unfold perturb_all_zero.
  destruct p as [|a [|b [|c [|d [|e p]]]]]; cbn [nth firstn forallb];
    change (fl_zero PrimFloat.zero) with true;
    repeat match goal with
           | |- context [fl_zero ?v] => is_var v; destruct (fl_zero v)
           end; reflexivity.
Qed.

Lemma existsb_negb_forallb {A} (f : A -> bool) (l : list A) :
  existsb (fun a => negb (f a)) l = negb (forallb f l).
Proof.
  induction l as [|a l IH]; cbn; [reflexivity|].
  rewrite IH. now destruct (f a).
Qed.

(** The nested tests of the source choose what the specification lists. *)
Lemma select_correction_claimed (use_fft : Z) (dlp : DLPObj) :
  select_correction use_fft dlp =
  claimed_correction use_fft (order dlp) (ecc dlp) (peri dlp) (perturb dlp).
Proof.
  unfold select_correction, claimed_correction.
  rewrite perturb_all_zero_forallb, existsb_negb_forallb.
  destruct (use_fft =? 0); cbn [negb]; [|reflexivity].
  destruct (order dlp =? 0) eqn:E0; cbn [andb].
  - destruct (fl_zero (ecc dlp)), (fl_zero (peri dlp));
      cbn [andb negb orb]; try reflexivity.
    destruct (forallb fl_zero (firstn 5 (perturb dlp))); reflexivity.
  - reflexivity.
Qed.



Section FresnelTransform.

Variable PyObject_GetIter : PyObject -> option (list PyObject).
Variable dlp_perturb : list float.
Variable DiffractionCorrection : Correction -> DLPObj -> heap -> Z * heap.

(** C1.  Once fresnel_transform has parsed and checked its arguments, the
    one correction routine it calls is decided by [use_fft], [order],
    [ecc], [peri] and [perturb] alone, as the specification lists it, and
    the call returns what the code after the dispatch makes of the status
    that routine leaves. *)
Theorem fresnel_transform_dispatch (args : list PyObject) (h : heap)
  (use_fft : Z) (dlp : DLPObj) (err : option PyExc) (h1 : heap) :
  fresnel_transform_setup PyObject_GetIter dlp_perturb args h
    = inr (use_fft, dlp, err, h1) ->
  select_correction use_fft dlp =
    claimed_correction use_fft (order dlp) (ecc dlp) (peri dlp) (perturb dlp)
  /\
  fresnel_transform PyObject_GetIter dlp_perturb DiffractionCorrection args h =
    let '(status, h2) :=
      DiffractionCorrection
        (claimed_correction use_fft (order dlp) (ecc dlp) (peri dlp)
           (perturb dlp)) dlp h1 in
    fresnel_transform_finish status dlp err h2.
Proof.
  intros H. split; [apply select_correction_claimed|].
  unfold fresnel_transform. rewrite H, select_correction_claimed.
  reflexivity.
Qed.




End FresnelTransform.

(** *** Runs on concrete arguments *)

Lemma besselJ0_ulonglong_type_error_witness :
  besselJ0 no_scalar no_scalar no_scalar no_scalar no_scalar no_scalar
    no_scalar no_scalar no_scalar no_scalar no_scalar no_scalar loop_map
    [PyArray sample_ulonglong]
  = Raise PyExc_TypeError /\
  besselJ0 no_scalar no_scalar no_scalar no_scalar no_scalar no_scalar
    no_scalar no_scalar no_scalar no_scalar no_scalar no_scalar loop_map
    [PyArray sample_uint64]
  = Return (new_array NPY_DOUBLE 2 [npy_int 0; npy_int (2 ^ 64 - 1)]).
Proof.
  split.
  - apply (proj2 (proj1 (besselJ0_ulonglong_type_error no_scalar no_scalar
                           no_scalar no_scalar no_scalar no_scalar no_scalar
                           no_scalar no_scalar no_scalar no_scalar no_scalar
                           loop_map sample_ulonglong eq_refl) eq_refl)).
  - apply (proj2 (besselJ0_ulonglong_type_error no_scalar no_scalar
                    no_scalar no_scalar no_scalar no_scalar no_scalar
                    no_scalar no_scalar no_scalar no_scalar no_scalar
                    loop_map sample_uint64 eq_refl) eq_refl).
Defined.

(** The claim of C9 fails for the unsigned 64-bit arrays of a system where
    [long] has 64 bits, whose type number is [NPY_ULONG]: the first of the
    two [NPY_ULONG] tests takes such an array, and the call returns an
    array of doubles, not [NULL] with a TypeError. *)
Lemma besselJ0_uint64_converted :
  PyArray_TYPE sample_uint64 = NPY_ULONG /\
  PyArray_NDIM sample_uint64 = 1 /\
  besselJ0 no_scalar no_scalar no_scalar no_scalar no_scalar no_scalar
    no_scalar no_scalar no_scalar no_scalar no_scalar no_scalar loop_map
    [PyArray sample_uint64]
  = Return (new_array NPY_DOUBLE 2 [npy_int 0; npy_int (2 ^ 64 - 1)]) /\
  besselJ0 no_scalar no_scalar no_scalar no_scalar no_scalar no_scalar
    no_scalar no_scalar no_scalar no_scalar no_scalar no_scalar loop_map
    [PyArray sample_uint64]
  <> Raise PyExc_TypeError.
Proof.
  split; [|split; [|split]]; try reflexivity. vm_compute. discriminate.
Qed.

(** The claim of C10 fails for an int that does not fit a C [long]: for
    2^63 the wrapper raises TypeError instead of returning the number. *)
Lemma compute_norm_eq_big_int :
  compute_norm_eq no_Normeq no_Normeq no_Normeq no_Normeq no_Normeq
    no_Normeq no_Normeq [PyLong (2 ^ 63)]
  = Raise PyExc_TypeError /\
  compute_norm_eq no_Normeq no_Normeq no_Normeq no_Normeq no_Normeq
    no_Normeq no_Normeq [PyLong (2 ^ 63)]
  <> Return (PyLong (2 ^ 63)).
Proof.
  split; [reflexivity|]. vm_compute. discriminate.
Qed.

Lemma compute_norm_eq_scalar_witness :
  compute_norm_eq no_Normeq no_Normeq no_Normeq no_Normeq no_Normeq
    no_Normeq no_Normeq [PyLong 7] = Return (PyLong 7) /\
  compute_norm_eq no_Normeq no_Normeq no_Normeq no_Normeq no_Normeq
    no_Normeq no_Normeq [PyLong (- 2 ^ 70)] = Raise PyExc_TypeError.
Proof.
  split.
  - apply (proj1 (compute_norm_eq_scalar no_Normeq no_Normeq no_Normeq
                    no_Normeq no_Normeq no_Normeq no_Normeq) 7).
    unfold LONG_MIN, LONG_MAX. lia.
  - apply (proj1 (proj2 (compute_norm_eq_scalar no_Normeq no_Normeq no_Normeq
                    no_Normeq no_Normeq no_Normeq no_Normeq)) (- 2 ^ 70)).
    unfold LONG_MIN, LONG_MAX. lia.
Defined.

Example sample_setup :
  fresnel_transform_setup list_items stale_cells
    (sample_args 0 0 no_perturb 0) empty_heap
  = inr (0, sample_dlp 0, None, snd (malloc empty_heap 32)).
Proof. vm_compute. reflexivity. Qed.

Example sample_success :
  fresnel_transform list_items stale_cells copy_input
    (sample_args 0 0 no_perturb 0) empty_heap =
  (Return (PyArray {| PyArray_TYPE := NPY_CDOUBLE;
                      PyArray_DIMS := [2];
                      PyArray_DATA := [npy_complex 1 0; npy_complex 1 0] |}),
   {| live := [(0%nat, [npy_complex 1 0; npy_complex 1 0])];
      next_block := 1;
      room := 2 ^ 40 |}).
Proof. vm_compute. reflexivity. Qed.

(** The six ways through the dispatch. *)
Example sample_dispatch :
  let chosen args :=
    match fresnel_transform_setup list_items stale_cells args empty_heap with
    | inr (use_fft, dlp, _, _) => Some (select_correction use_fft dlp)
    | inl _ => None
    end in
  chosen (sample_args 1 0 no_perturb 0) = Some SimpleFFT /\
  chosen (sample_args 0 0 no_perturb 0) = Some Newton /\
  chosen (sample_args 0 0 (PyList [PyLong 0; PyLong 0; PyFloat 0.5;
                                   PyLong 0; PyLong 0]) 0)
    = Some PerturbedNewton /\
  chosen (sample_args 0 0 no_perturb 0.125) = Some Ellipse /\
  chosen (sample_args 0 1 no_perturb 0) = Some Fresnel /\
  chosen (sample_args 0 4 no_perturb 0) = Some Legendre.
Proof. vm_compute. repeat split. Qed.

Lemma fresnel_transform_dispatch_witness :
  select_correction 0 (sample_dlp 0) = Newton /\
  fresnel_transform list_items stale_cells copy_input
    (sample_args 0 0 no_perturb 0) empty_heap =
    let '(status, h2) :=
      copy_input Newton (sample_dlp 0) (snd (malloc empty_heap 32)) in
    fresnel_transform_finish status (sample_dlp 0) None h2.
Proof.
  exact (fresnel_transform_dispatch list_items stale_cells copy_input
           (sample_args 0 0 no_perturb 0) empty_heap 0 (sample_dlp 0) None
           (snd (malloc empty_heap 32)) eq_refl).
Defined.


(** On success the block leaves with the returned array, and the capsule
    destructor is what frees it. *)
Example sample_success_release :
  let r := fresnel_transform list_items stale_cells copy_input
             (sample_args 0 0 no_perturb 0) empty_heap in
  allocated (snd r) 0 = true /\
  allocated (capsule_cleanup (snd r) 0) 0 = false.
Proof. vm_compute. split; reflexivity. Qed.

(** An item of [perturb] that is not a number sets TypeError, leaves its
    cell as it was and does not stop the call: the stale cell decides the
    dispatch. *)
Example sample_stale_perturb :
  let args := sample_args 0 0 (PyList [PyLong 0; PyNone; PyLong 0;
                                       PyLong 0; PyLong 0]) 0 in
  fresnel_transform_setup list_items stale_cells args empty_heap
  = inr (0, {| start := 0; n_used := 1; wtype := 0; use_norm := 1;
               use_fwd := 0; order := 0; ecc := 0; peri := 0; interp := 0;
               perturb := [0; 2; 0; 0; 0]%float; arr_size := 2;
               T_in := T_in (sample_dlp 0);
               rho_km_vals := rho_km_vals (sample_dlp 0);
               F_km_vals := F_km_vals (sample_dlp 0);
               phi_rad_vals := phi_rad_vals (sample_dlp 0);
               kd_vals := kd_vals (sample_dlp 0);
               B_rad_vals := B_rad_vals (sample_dlp 0);
               D_km_vals := D_km_vals (sample_dlp 0);
               w_km_vals := w_km_vals (sample_dlp 0);
               T_out := Some 0%nat |},
         Some PyExc_TypeError, snd (malloc empty_heap 32)).
Proof. vm_compute. reflexivity. Qed.

(** A negative [n_used] passes the tests; the size handed to [malloc] wraps
    to almost 2^64 bytes and [dlp.T_out] is [NULL] at the dispatch. *)
Example sample_negative_n_used :
  let args :=
    [PyArray (complex_array [(1, 0); (1, 0)]%float);
     PyArray (real_array [87400; 87401]%float);
     PyArray (real_array [1; 1]%float); PyArray (real_array [0; 0]%float);
     PyArray (real_array [1; 1]%float); PyArray (real_array [0.5; 0.5]%float);
     PyArray (real_array [200000; 200000]%float);
     PyArray (real_array [4; 4]%float); no_perturb;
     PyLong 0; PyLong (-3); PyLong 0; PyLong 1; PyLong 0;
     PyLong 0; PyLong 0; PyLong 0; PyFloat 0; PyFloat 0] in
  match fresnel_transform_setup list_items stale_cells args empty_heap with
  | inr (_, dlp, _, h1) => T_out dlp = None /\ h1 = empty_heap
  | inl _ => False
  end.
Proof. vm_compute. split; reflexivity. Qed.

End WrappersFacts.

(** * More of the code *)

Module NumericsFacts.

Import CDouble CDoubleFacts CDoubleMoreFacts SpecialFunctions
       SpecialFunctionsFacts Numerics.
Local Open Scope float_scope.

(** *** rssringoccs_Wavelength_To_Wavenumber_Double *)

(** X1.  The wavenumber is an odd function of the wavelength: negating the
    wavelength negates the result, for every double, the zeros, the
    infinities and NaN included. *)
Theorem Wavelength_To_Wavenumber_odd (lambda : float) :
  rssringoccs_Wavelength_To_Wavenumber_Double (- lambda) =
  - rssringoccs_Wavelength_To_Wavenumber_Double lambda.
Proof. apply div_opp_r. Qed.

(** *** rssringoccs_CDouble_Abs_Squared *)

(** X2.  The squared modulus is at least zero exactly when neither part of
    the argument is NaN ([x == x]); rounding, overflow to infinity and
    underflow to zero never produce a negative value, and the only other
    result is NaN. *)
Theorem CDouble_Abs_Squared_nonneg (z : rssringoccs_ComplexDouble) :
  (0 <=? rssringoccs_CDouble_Abs_Squared z) =
  (rssringoccs_CDouble_Real_Part z =? rssringoccs_CDouble_Real_Part z) &&
  (rssringoccs_CDouble_Imag_Part z =? rssringoccs_CDouble_Imag_Part z).
Proof.
  unfold rssringoccs_CDouble_Abs_Squared. cbv zeta.
  destruct z as [re im].
  cbn [rssringoccs_CDouble_Real_Part rssringoccs_CDouble_Imag_Part].
  destruct (re =? re) eqn:Er.
  - destruct (im =? im) eqn:Ei.
    + apply eqb_self in Er, Ei.
      apply signed_false_nonneg, add_signed; now apply square_signed.
    + apply leb_zero_nan, add_nan_r, square_nan, eqb_self_false, Ei.
  - apply leb_zero_nan, add_nan_l, square_nan, eqb_self_false, Er.
Qed.

(** X3.  The squared modulus does not see the signs of the two parts: the
    conjugate, the reflection in the imaginary axis and the negation of a
    number have its squared modulus, bit for bit. *)
Theorem CDouble_Abs_Squared_symmetric (re im : float) :
  let abs_sq x y :=
    rssringoccs_CDouble_Abs_Squared
      {| rssringoccs_CDouble_Real_Part := x;
         rssringoccs_CDouble_Imag_Part := y |} in
  abs_sq re (- im) = abs_sq re im /\
  abs_sq (- re) im = abs_sq re im /\
  abs_sq (- re) (- im) = abs_sq re im.
Proof.
  unfold rssringoccs_CDouble_Abs_Squared. cbn.
  rewrite !mul_opp_opp. auto.
Qed.

(** *** rssringoccs_Kaiser_Bessel_Double *)

(** X4.  A window whose width is not positive (negative, a zero or NaN) is
    zero everywhere, for every [x] and [alpha]: the test [fabs(x) < W/2]
    fails and the Bessel function is never called. *)
Theorem Kaiser_Bessel_nonpositive_width (I0 : float -> float)
  (x W alpha : float) :
  (0 <? W) = false ->
  rssringoccs_Kaiser_Bessel_Double I0 x W alpha = 0.
Proof.
  intros HW. unfold rssringoccs_Kaiser_Bessel_Double.
  rewrite (abs_below_half_nonpositive x W HW).
  destruct (alpha =? 0); reflexivity.
Qed.

(** *** LambertW_Double *)

Section Libm.

Variables exp log : float -> float.

(** X5.  Inside the test [(x < INFINITY) && (x > -RCPR_EULER_E)] the two
    inner [return] statements of LambertW_Double ([-1.0] and [nan]) are
    never reached: the function is the Halley iteration started from
    [log(x/log(x))] above 2 and from [x] itself up to 2. *)
Theorem LambertW_inner_returns_dead (fuel : nat) (x : float) :
  (x <? infinity) && (- RCPR_EULER_E <? x) = true ->
  LambertW_Double exp log fuel x =
    let x0 := if 2 <? x then log (x / log x) else x in
    let dx := halley_dx exp x x0 in
    LambertW_loop exp fuel x (x0 - dx) dx.
Proof.
  intros G. unfold LambertW_Double.
  rewrite G, (LambertW_guess_defined log x G). reflexivity.
Qed.

End Libm.

End NumericsFacts.

Module WhereFacts.

Import CDouble CDoubleFacts CDoubleMoreFacts Numerics.

Lemma write_cell_spec {X : Type} (l : list X) (n : nat) (x : X) :
  (n < length l)%nat ->
  exists l', write_cell l n x = Some l' /\
             length l' = length l /\
             firstn (S n) l' = firstn n l ++ [x].
Proof.
  revert n. induction l as [|y l IH]; intros n Hn; cbn in Hn; [lia|].
  destruct n as [|n]; cbn [write_cell].
  - eexists. repeat split.
  - destruct (IH n ltac:(lia)) as (l' & -> & Hlen & Hfirst).
    eexists. split; [reflexivity|]. split.
    + cbn. now rewrite Hlen.
    + cbn [firstn app]. cbn [firstn] in Hfirst. now rewrite Hfirst.
Qed.

Section Where.

Variable elt : Type.
Variable to_double : elt -> float.

(** The invariant of the first loop: the cells of [dummy] below [arr_size]
    hold the selected indices met so far, in order, and [arr_size] never
    overtakes the loop index. *)
Lemma where_loop_spec (steps i k : nat) (data : list elt)
  (threshold : float) (dummy : list Z) :
  (i + steps <= length data)%nat ->
  (i + steps <= length dummy)%nat ->
  (k <= i)%nat ->
  let sel :=
    map Z.of_nat
      (filter (selects elt to_double data threshold) (seq i steps)) in
  exists dummy',
    where_loop elt to_double steps (Z.of_nat i) data threshold dummy
      (Z.of_nat k)
    = Some (dummy', Z.of_nat (k + length sel)) /\
    length dummy' = length dummy /\
    firstn (k + length sel) dummy' = firstn k dummy ++ sel.
Proof.
  revert i k dummy.
  induction steps as [|steps IH]; intros i k dummy Hd Hm Hk; cbn zeta.
  - cbn. exists dummy. rewrite Nat.add_0_r, app_nil_r. auto.
  - cbn [where_loop seq filter]. rewrite !Nat2Z.id.
    destruct (nth_error data i) as [d|] eqn:E.
    2:{ apply nth_error_None in E. lia. }
    assert (Hsel : selects elt to_double data threshold i
                   = PrimFloat.ltb threshold (to_double d))
      by (unfold selects; now rewrite E).
    rewrite Hsel.
    replace (Z.of_nat i + 1)%Z with (Z.of_nat (S i)) by lia.
    destruct (PrimFloat.ltb threshold (to_double d)).
    + destruct (write_cell_spec dummy k (Z.of_nat i) ltac:(lia))
        as (dummy1 & -> & Hlen1 & Hfirst1).
      replace (Z.of_nat k + 1)%Z with (Z.of_nat (S k)) by lia.
      destruct (IH (S i) (S k) dummy1 ltac:(lia) ltac:(lia) ltac:(lia))
        as (dummy' & Hloop & Hlen & Hfirst).
      cbv zeta in Hloop, Hfirst.
      set (sel' := map Z.of_nat
                     (filter (selects elt to_double data threshold)
                        (seq (S i) steps))) in *.
      exists dummy'. cbn [map length]. fold sel'.
      rewrite Nat.add_succ_r. change (S (k + length sel')) with
        (S k + length sel')%nat.
      rewrite Hloop. split; [reflexivity|]. split; [congruence|].
      rewrite Hfirst, Hfirst1, <- app_assoc. reflexivity.
    + destruct (IH (S i) k dummy ltac:(lia) ltac:(lia) ltac:(lia))
        as (dummy' & Hloop & Hlen & Hfirst).
      exists dummy'. auto.
Qed.

(** The function returns the documented indices, whatever the fresh block
    [dummy] held, and never leaves the bounds of [data] and [dummy]. *)
Lemma get_where_pointer_spec (data : list elt) (dim : Z) (threshold : float)
  (dummy : list Z) :
  (Z.to_nat dim <= length data)%nat ->
  length dummy = Z.to_nat dim ->
  get_where_pointer elt to_double data dim threshold dummy =
  Some (where_indices elt to_double data dim threshold,
        Z.of_nat (length (where_indices elt to_double data dim threshold))).
Proof.
  intros Hd Hm. unfold get_where_pointer.
  destruct (where_loop_spec (Z.to_nat dim) 0 0 data threshold dummy
              ltac:(lia) ltac:(lia) ltac:(lia))
    as (dummy' & Hloop & Hlen & Hfirst).
  cbn zeta in Hloop, Hfirst. cbn [Nat.add Z.of_nat] in Hloop.
  change (Z.of_nat 0) with 0%Z in Hloop. rewrite Hloop.
  rewrite Nat2Z.id. cbn [Nat.add firstn app] in Hfirst.
  rewrite Hfirst. reflexivity.
Qed.

Lemma where_indices_In (data : list elt) (dim : Z) (threshold : float)
  (n : Z) :
  In n (where_indices elt to_double data dim threshold) <->
  (0 <= n < dim)%Z /\
  exists d, nth_error data (Z.to_nat n) = Some d /\
            PrimFloat.ltb threshold (to_double d) = true.
Proof.
  unfold where_indices. rewrite in_map_iff. split.
  - intros (k & <- & Hk). apply filter_In in Hk. destruct Hk as [Hs Hp].
    apply in_seq in Hs. split; [lia|]. rewrite Nat2Z.id.
    unfold selects in Hp. destruct (nth_error data k); [eauto|discriminate].
  - intros (Hn & d & Hd & Hp). exists (Z.to_nat n). split; [lia|].
    apply filter_In. split; [apply in_seq; lia|].
    unfold selects. now rewrite Hd.
Qed.

Lemma seq_sorted (a n : nat) : StronglySorted lt (seq a n).
Proof.
  revert a. induction n as [|n IH]; intros a; cbn; constructor; auto.
  apply Forall_forall. intros x Hx. apply in_seq in Hx. lia.
Qed.

Lemma filter_sorted {X} (R : X -> X -> Prop) (p : X -> bool) (l : list X) :
  StronglySorted R l -> StronglySorted R (filter p l).
Proof.
  induction 1 as [|x l Hs IH Hf]; cbn; [constructor|].
  destruct (p x); [|exact IH]. constructor; [exact IH|].
  apply Forall_forall. intros y Hy. apply filter_In in Hy.
  rewrite Forall_forall in Hf. apply Hf, Hy.
Qed.

Lemma map_of_nat_sorted (l : list nat) :
  StronglySorted lt l -> StronglySorted Z.lt (map Z.of_nat l).
Proof.
  induction 1 as [|x l Hs IH Hf]; cbn; constructor; [exact IH|].
  rewrite Forall_forall in *. intros y Hy. apply in_map_iff in Hy.
  destruct Hy as (k & <- & Hk). specialize (Hf k Hk). lia.
Qed.

Lemma where_indices_sorted (data : list elt) (dim : Z) (threshold : float) :
  StronglySorted Z.lt (where_indices elt to_double data dim threshold).
Proof.
  unfold where_indices.
  apply map_of_nat_sorted, filter_sorted, seq_sorted.
Qed.

Lemma where_indices_length (data : list elt) (dim : Z) (threshold : float) :
  (length (where_indices elt to_double data dim threshold)
   <= Z.to_nat dim)%nat.
Proof.
  unfold where_indices. rewrite length_map.
  etransitivity; [apply filter_length_le|]. now rewrite length_seq.
Qed.

(** X6.  Given [dim] readable elements, [__get_where_pointer] returns, and
    the array it returns holds exactly the indices [n] with [0 <= n < dim]
    and [data[n] > threshold], whatever the freshly allocated scratch block
    contained. *)
Theorem get_where_pointer_indices (data : list elt) (dim : Z)
  (threshold : float) (dummy : list Z) :
  (Z.to_nat dim <= length data)%nat ->
  length dummy = Z.to_nat dim ->
  exists arr arr_size,
    get_where_pointer elt to_double data dim threshold dummy
      = Some (arr, arr_size) /\
    forall n : Z,
      In n arr <->
      (0 <= n < dim)%Z /\
      exists d, nth_error data (Z.to_nat n) = Some d /\
                PrimFloat.ltb threshold (to_double d) = true.
Proof.
  intros Hd Hm. eexists _, _. split.
  - apply get_where_pointer_spec; assumption.
  - apply where_indices_In.
Qed.

(** X7.  The returned indices are strictly increasing; in particular no
    index occurs twice. *)
Theorem get_where_pointer_sorted (data : list elt) (dim : Z)
  (threshold : float) (dummy : list Z) (arr : list Z) (arr_size : Z) :
  (Z.to_nat dim <= length data)%nat ->
  length dummy = Z.to_nat dim ->
  get_where_pointer elt to_double data dim threshold dummy
    = Some (arr, arr_size) ->
  StronglySorted Z.lt arr /\ NoDup arr.
Proof.
  intros Hd Hm H. rewrite (get_where_pointer_spec _ _ _ _ Hd Hm) in H.
  injection H as <- _.
  pose proof (where_indices_sorted data dim threshold) as Hs.
  split; [exact Hs|].
  induction Hs as [|x l Hs IH Hf]; constructor; [|exact IH].
  intros Hin. rewrite Forall_forall in Hf. specialize (Hf x Hin). lia.
Qed.

(** X8.  The value [arr_size] has when the function returns, which is
    what [where[1]] points to, is the length of the returned array, and
    lies between 0 and [dim]. *)
Theorem get_where_pointer_count (data : list elt) (dim : Z)
  (threshold : float) (dummy : list Z) (arr : list Z) (arr_size : Z) :
  (Z.to_nat dim <= length data)%nat ->
  length dummy = Z.to_nat dim ->
  get_where_pointer elt to_double data dim threshold dummy
    = Some (arr, arr_size) ->
  arr_size = Z.of_nat (length arr) /\ (0 <= arr_size <= Z.max 0 dim)%Z.
Proof.
  intros Hd Hm H. rewrite (get_where_pointer_spec _ _ _ _ Hd Hm) in H.
  injection H as <- <-.
  pose proof (where_indices_length data dim threshold). split; lia.
Qed.

(** X9.  No element is above a NaN threshold: the result is the empty
    array with count 0. *)
Theorem get_where_pointer_nan (data : list elt) (dim : Z)
  (dummy : list Z) :
  (Z.to_nat dim <= length data)%nat ->
  length dummy = Z.to_nat dim ->
  get_where_pointer elt to_double data dim PrimFloat.nan dummy
    = Some ([], 0%Z).
Proof.
  intros Hd Hm. rewrite (get_where_pointer_spec _ _ _ _ Hd Hm).
  assert (E : where_indices elt to_double data dim PrimFloat.nan = []).
  { unfold where_indices.
    replace (filter (selects elt to_double data PrimFloat.nan)
               (seq 0 (Z.to_nat dim)))
      with (@nil nat); [reflexivity|].
    symmetry. induction (seq 0 (Z.to_nat dim)) as [|a l IH]; cbn;
      [reflexivity|].
    unfold selects at 1. destruct (nth_error data a); [|exact IH].
    rewrite ltb_nan_l. exact IH. }
  rewrite E. reflexivity.
Qed.

End Where.

End WhereFacts.

Module UfuncFacts.

Import CDouble Numerics.

Section FresnelScale.

Variable Fresnel_Scale_Double : float -> float -> float -> float -> float.

Lemma fresnel_scale_loop_spec (lambda d phi b : list float)
  (ls ds ps bs : nat) (n : nat) :
  forall j k l m : nat,
  (forall i, i < n -> j + i * ls < length lambda) ->
  (forall i, i < n -> k + i * ds < length d) ->
  (forall i, i < n -> l + i * ps < length phi) ->
  (forall i, i < n -> m + i * bs < length b) ->
  fresnel_scale_loop Fresnel_Scale_Double n lambda d phi b ls ds ps bs j k l m
  = Some (map (fun i =>
                 Fresnel_Scale_Double
                   (nth (j + i * ls) lambda PrimFloat.zero)
                   (nth (k + i * ds) d PrimFloat.zero)
                   (nth (l + i * ps) phi PrimFloat.zero)
                   (nth (m + i * bs) b PrimFloat.zero))
              (seq 0 n)).
Proof.
  induction n as [|n IH]; intros j k l m Hl Hd Hp Hb; [reflexivity|].
  cbn [fresnel_scale_loop].
  assert (R : forall (v : list float) (a s : nat),
             (forall i, i < S n -> a + i * s < length v) ->
             nth_error v a = Some (nth a v PrimFloat.zero) /\
             (forall i, i < n -> (a + s) + i * s < length v)).
  { intros v a s H. split.
    - apply nth_error_nth'. specialize (H 0 ltac:(lia)). lia.
    - intros i Hi. specialize (H (S i) ltac:(lia)). lia. }
  destruct (R _ _ _ Hl) as [-> Hl'], (R _ _ _ Hd) as [-> Hd'],
           (R _ _ _ Hp) as [-> Hp'], (R _ _ _ Hb) as [-> Hb'].
  rewrite (IH _ _ _ _ Hl' Hd' Hp' Hb').
  cbn [seq map]. rewrite !Nat.add_0_r. do 2 f_equal.
  rewrite <- seq_shift, map_map. apply map_ext. intros i.
  f_equal; f_equal; lia.
Qed.

(** X10.  The ufunc loop double_fresnel_scale writes [dimensions[0]]
    values, the [i]-th being [Fresnel_Scale_Double] of element [i] of each
    input whose stride is not zero and of element 0 of each input whose
    stride is zero; of a stride it uses nothing but whether it is zero. *)
Theorem double_fresnel_scale_elementwise (lambda d phi b : list float)
  (dimensions : Z) (steps : list Z) :
  let n := Z.to_nat dimensions in
  let at_ (v : list float) (arg i : nat) :=
    nth (i * step_flag (nth arg steps 0%Z)) v PrimFloat.zero in
  (forall i, i < n -> i * step_flag (nth 0 steps 0%Z) < length lambda) ->
  (forall i, i < n -> i * step_flag (nth 1 steps 0%Z) < length d) ->
  (forall i, i < n -> i * step_flag (nth 2 steps 0%Z) < length phi) ->
  (forall i, i < n -> i * step_flag (nth 3 steps 0%Z) < length b) ->
  double_fresnel_scale Fresnel_Scale_Double lambda d phi b dimensions steps
  = Some (map (fun i =>
                 Fresnel_Scale_Double (at_ lambda 0 i) (at_ d 1 i)
                   (at_ phi 2 i) (at_ b 3 i))
              (seq 0 n)).
Proof.
  intros n at_ Hl Hd Hp Hb. unfold double_fresnel_scale. cbv zeta.
  now rewrite fresnel_scale_loop_spec.
Qed.

End FresnelScale.

End UfuncFacts.

Module MoreWrappersFacts.

Import CDouble CPython Wrappers MoreWrappers.
Local Open Scope Z_scope.

Section OneVar.

Variables F_Float F_Double F_Long_Double F_Char F_UChar F_Short F_UShort
          F_Int F_UInt F_Long F_ULong F_Long_Long
  : npy_scalar -> npy_scalar.

Variable loop :
  list npy_scalar -> Z -> (npy_scalar -> npy_scalar) -> list npy_scalar.

(** X11.  On a one-dimensional array besselJ0 either raises TypeError,
    when the element type is not one of the twelve it handles, or returns a
    one-dimensional array of the same length holding what the loop macro
    makes of the input with the routine of that type; the result is an array
    of [float] or [long double] for such an input and of [double] for every
    other type.  For an empty array the object is returned with TypeError
    set, not [NULL]. *)
Theorem besselJ0_one_dimensional (x : PyArrayObject) (dim : Z) :
  PyArray_DIMS x = [dim] ->
  besselJ0 F_Float F_Double F_Long_Double F_Char F_UChar F_Short F_UShort
    F_Int F_UInt F_Long F_ULong F_Long_Long loop [PyArray x] =
  if handled_type (PyArray_TYPE x) then
    Done (Some (new_array (output_type (PyArray_TYPE x)) dim
                  (loop (PyArray_DATA x) dim
                     (routine_for F_Float F_Double F_Long_Double F_Char
                        F_UChar F_Short F_UShort F_Int F_UInt F_Long F_ULong
                        F_Long_Long (PyArray_TYPE x)))))
         (if dim =? 0 then Some PyExc_TypeError else None)
  else Raise PyExc_TypeError.
Proof.
  intros Hd. unfold besselJ0, PyArray_NDIM.
  cbn [PyArg_ParseTuple convert]. rewrite Hd. cbn [length Z.of_nat].
  change (negb (Z.of_nat 1 =? 1)) with false. cbv iota.
  destruct (PyArray_TYPE x); reflexivity.
Qed.

(** X12.  An array that is not one-dimensional never reaches a routine:
    TypeError for two and more dimensions, and for a zero-dimensional array
    the read of [PyArray_DIMS(x)[0]] that precedes the test. *)
Theorem besselJ0_other_shapes (x : PyArrayObject) :
  PyArray_NDIM x <> 1 ->
  besselJ0 F_Float F_Double F_Long_Double F_Char F_UChar F_Short F_UShort
    F_Int F_UInt F_Long F_ULong F_Long_Long loop [PyArray x] =
  if PyArray_NDIM x =? 0 then Undefined else Raise PyExc_TypeError.
Proof.
  intros Hn. unfold besselJ0. cbn [PyArg_ParseTuple convert].
  unfold PyArray_NDIM in *.
  destruct (PyArray_DIMS x) as [|d ds]; [reflexivity|].
  apply Z.eqb_neq in Hn. rewrite Hn. cbn [negb].
  cbn [length]. destruct (Z.of_nat (S (length ds)) =? 0) eqn:E;
    [apply Z.eqb_eq in E; lia|reflexivity].
Qed.

End OneVar.

(** *** fresnel_transform *)

Lemma parse_values (format : list format_unit) (args : list PyObject)
  (vs : list c_value) :
  PyArg_ParseTuple format args = Some vs ->
  forall v, In v vs -> exists u o, convert u o = Some v.
Proof.
  revert args vs. induction format as [|u format IH]; intros [|o args] vs;
    cbn [PyArg_ParseTuple]; try discriminate.
  - intros [= <-] v [].
  - destruct (convert u o) as [v0|] eqn:E; [|discriminate].
    destruct (PyArg_ParseTuple format args) as [vs0|] eqn:E'; [|discriminate].
    intros [= <-] v [<-|Hin]; eauto.
Qed.

Lemma convert_uchar (u : format_unit) (o : PyObject) (n : Z) :
  convert u o = Some (C_uchar n) -> 0 <= n <= UCHAR_MAX.
Proof.
  destruct u, o; cbn [convert]; try discriminate.
  - destruct ((LONG_MIN <=? n0) && (n0 <=? LONG_MAX)); discriminate.
  - destruct ((0 <=? n0) && (n0 <=? UCHAR_MAX)) eqn:E; [|discriminate].
    intros [= <-]. apply andb_prop in E. lia.
  - destruct (is_finite (of_Z n0)); discriminate.
Qed.

Lemma convert_long (u : format_unit) (o : PyObject) (n : Z) :
  convert u o = Some (C_long n) -> LONG_MIN <= n <= LONG_MAX.
Proof.
  destruct u, o; cbn [convert]; try discriminate.
  - destruct ((LONG_MIN <=? n0) && (n0 <=? LONG_MAX)) eqn:E; [|discriminate].
    intros [= <-]. apply andb_prop in E. lia.
  - destruct ((0 <=? n0) && (n0 <=? UCHAR_MAX)); discriminate.
  - destruct (is_finite (of_Z n0)); discriminate.
Qed.

Lemma perturb_loop_length (n : nat) (items : list PyObject)
  (cells : list float) (err : option PyExc) (p : list float)
  (err' : option PyExc) :
  perturb_loop n items cells err = Some (p, err') -> length p = n.
Proof.
  revert items cells err p err'.
  induction n as [|n IH]; intros items cells err p err'; cbn [perturb_loop].
  - intros [= <- _]. reflexivity.
  - destruct items as [|next items]; [discriminate|].
    destruct (match next with
              | PyLong z =>
                  let '(v, e) := PyLong_AsLong z in
                  (of_Z v, match e with Some _ => e | None => err end)
              | PyFloat d => (d, err)
              | _ => (hd PrimFloat.zero cells, Some PyExc_TypeError)
              end) as [value err1].
    destruct (perturb_loop n items (tl cells) err1) as [[p0 e0]|] eqn:E;
      [|discriminate].
    intros [= <- _]. cbn [length]. f_equal. eapply IH, E.
Qed.


Lemma long_add_spec (a b s : Z) :
  long_add a b = Some s -> s = a + b /\ LONG_MIN <= s <= LONG_MAX.
Proof.
  unfold long_add. cbv zeta.
  destruct ((LONG_MIN <=? a + b) && (a + b <=? LONG_MAX)) eqn:E;
    [|discriminate].
  intros [= <-]. apply andb_prop in E. lia.
Qed.

Ltac break_setup H :=
  repeat match type of H with
         | context [match ?x with _ => _ end] =>
             lazymatch x with
             | context [match _ with _ => _ end] => fail
             | _ => destruct x eqn:?; try discriminate H
             end
         end.

Section FresnelTransform.

Variable PyObject_GetIter : PyObject -> option (list PyObject).
Variable dlp_perturb : list float.
Variable DiffractionCorrection : Correction -> DLPObj -> heap -> Z * heap.

Lemma fresnel_transform_setup_early (args : list PyObject) (h : heap)
  (r : outcome) (h' : heap) :
  fresnel_transform_setup PyObject_GetIter dlp_perturb args h = inl (r, h') ->
  h' = h.
Proof.
  unfold fresnel_transform_setup, malloc. intros H.
  repeat match type of H with
         | context [match ?x with _ => _ end] =>
             lazymatch x with
             | context [match _ with _ => _ end] => fail
             | _ => destruct x; try discriminate H
             end
         end;
    injection H as _ <-; reflexivity.
Qed.

(** X16.  A call of fresnel_transform that returns before the dispatch
    (arguments that do not parse, a failed test on an array, a window out of
    range) has allocated nothing: the heap is as it was. *)
Theorem fresnel_transform_early_return (args : list PyObject) (h : heap) :
  fresnel_transform_status PyObject_GetIter dlp_perturb DiffractionCorrection
    args h = None ->
  snd (fresnel_transform PyObject_GetIter dlp_perturb DiffractionCorrection
         args h) = h.
Proof.
  unfold fresnel_transform_status, fresnel_transform.
  destruct (fresnel_transform_setup PyObject_GetIter dlp_perturb args h)
    as [[r h']|[[[use_fft dlp] err] h1]] eqn:E; [|discriminate].
  intros _. cbn [snd]. eapply fresnel_transform_setup_early, E.
Qed.

(** X17.  What the tests of fresnel_transform guarantee to the correction
    routine it calls: five perturbation coefficients, [start] and
    [start + n_used] at most [arr_size], [use_fft], [order] and [interp]
    within an unsigned char, and an output pointer that is [NULL] or the
    block just allocated.  Neither [start] nor [n_used] is tested from
    below. *)
Theorem fresnel_transform_setup_invariant (args : list PyObject) (h : heap)
  (use_fft : Z) (dlp : DLPObj) (err : option PyExc) (h1 : heap) :
  fresnel_transform_setup PyObject_GetIter dlp_perturb args h
    = inr (use_fft, dlp, err, h1) ->
  (length (perturb dlp) = 5)%nat /\
  (start dlp <= arr_size dlp) /\
  (start dlp + n_used dlp <= arr_size dlp) /\
  (0 <= use_fft <= 255) /\
  (0 <= order dlp <= 255) /\
  (0 <= interp dlp <= 255) /\
  (T_out dlp = None \/ T_out dlp = Some (next_block h)).
Proof.
  unfold fresnel_transform_setup, malloc. intros H.
  destruct (PyArg_ParseTuple fresnel_transform_format args) as [vs|] eqn:P;
    [|discriminate H].
  pose proof (parse_values _ _ _ P) as V.
  assert (U : forall n, In (C_uchar n) vs -> 0 <= n <= 255).
  { intros k Hk. destruct (V _ Hk) as (u & o & Hc).
    exact (convert_uchar _ _ _ Hc). }
  clear V P.
  break_setup H; subst;
    injection H as <- <- <- <-;
    cbn [perturb start arr_size n_used order interp T_out];
    repeat match goal with
           | E : (_ <? _) = false |- _ => apply Z.ltb_ge in E
           | E : long_add _ _ = Some _ |- _ =>
               apply long_add_spec in E; destruct E as [-> ?]
           end;
    (split; [eapply perturb_loop_length; eassumption|]);
    repeat (split; [first [lia | apply U; cbn; tauto]|]);
    auto.
Qed.

Lemma check_real_array_len_of (a a' len_of : PyArrayObject) (size : Z) :
  PyArray_TYPE a' = PyArray_TYPE a ->
  PyArray_NDIM a' = PyArray_NDIM a ->
  check_real_array a' len_of size = check_real_array a len_of size.
Proof.
  intros Ht Hn. unfold check_real_array. now rewrite Ht, Hn.
Qed.

(** X18.  The length of [D_km_vals] is never looked at (its length test
    reads [B_rad_vals]): replacing [D_km_vals] by an array of the same type
    and number of dimensions, of any length, changes nothing in what
    fresnel_transform does up to the dispatch but the data pointer it hands
    on. *)
Theorem fresnel_transform_D_km_vals_length
  (T rho F phi kd B D D' w : PyArrayObject) (perturb_list : PyObject)
  (start_v n_used_v wtype_v use_norm_v use_fwd_v use_fft order_v interp_v : Z)
  (ecc_v peri_v : float) (h : heap) :
  PyArray_TYPE D' = PyArray_TYPE D ->
  PyArray_NDIM D' = PyArray_NDIM D ->
  fresnel_transform_setup PyObject_GetIter dlp_perturb
    (fresnel_args T rho F phi kd B D' w perturb_list start_v n_used_v wtype_v
       use_norm_v use_fwd_v use_fft order_v interp_v ecc_v peri_v) h =
  match fresnel_transform_setup PyObject_GetIter dlp_perturb
          (fresnel_args T rho F phi kd B D w perturb_list start_v n_used_v
             wtype_v use_norm_v use_fwd_v use_fft order_v interp_v ecc_v
             peri_v) h with
  | inl r => inl r
  | inr (u, dlp, err, h1) =>
      inr (u, with_D_km_vals dlp (PyArray_DATA D'), err, h1)
  end.
Proof.
  intros Ht Hn. unfold fresnel_transform_setup, fresnel_args, malloc.
  cbn [PyArg_ParseTuple fresnel_transform_format convert].
  repeat match goal with
         | |- context [if ?b then Some _ else None] => destruct b
         end; cbv beta iota; try reflexivity.
  destruct (PyObject_GetIter perturb_list) as [items|]; [|reflexivity].
  destruct (perturb_loop 5 items dlp_perturb None) as [[perturb_v err]|];
    [|reflexivity].
  destruct (PyArray_DIMS T) as [|arr_size_v dims]; [reflexivity|].
  rewrite (check_real_array_len_of D D' B arr_size_v Ht Hn).
  repeat match goal with
         | |- context [match ?x with _ => _ end] =>
             lazymatch x with
             | context [match _ with _ => _ end] => fail
             | _ => destruct x
             end
         end; reflexivity.
Qed.


(** X20.  An object comes back from fresnel_transform only when the
    correction routine left status 0, and it is a one-dimensional
    complex-double array of [n_used + 1] samples whose data is the block
    [dlp.T_out], still allocated when the call returns. *)
Theorem fresnel_transform_returns_object (args : list PyObject) (h : heap)
  (v : PyObject) (e : option PyExc) :
  fst (fresnel_transform PyObject_GetIter dlp_perturb DiffractionCorrection
         args h) = Done (Some v) e ->
  fresnel_transform_status PyObject_GetIter dlp_perturb DiffractionCorrection
    args h = Some 0 /\
  exists use_fft dlp err h1 y,
    fresnel_transform_setup PyObject_GetIter dlp_perturb args h
      = inr (use_fft, dlp, err, h1) /\
    v = PyArray {| PyArray_TYPE := NPY_CDOUBLE;
                   PyArray_DIMS := [n_used dlp + 1];
                   PyArray_DATA := y |} /\
    pointee
      (snd (fresnel_transform PyObject_GetIter dlp_perturb
              DiffractionCorrection args h)) (T_out dlp) = Some y.
Proof.
  unfold fresnel_transform, fresnel_transform_status.
  destruct (fresnel_transform_setup PyObject_GetIter dlp_perturb args h)
    as [[r h']|[[[use_fft dlp] err] h1]] eqn:E.
  - intros H. cbn [fst] in H. subst r. exfalso.
    unfold fresnel_transform_setup, malloc in E.
    repeat match type of E with
           | context [match ?x with _ => _ end] =>
               lazymatch x with
               | context [match _ with _ => _ end] => fail
               | _ => destruct x; try discriminate E
               end
           end.
  - destruct (DiffractionCorrection _ dlp h1) as [status h2]. cbn [fst].
    unfold fresnel_transform_finish, Raise.
    destruct (status =? 0) eqn:S0.
    + apply Z.eqb_eq in S0. subst status.
      destruct (pointee h2 (T_out dlp)) as [y|] eqn:B; [|discriminate].
      cbn [fst snd]. intros [= <- _]. split; [reflexivity|].
      eexists _, _, _, _, _. split; [reflexivity|]. split; [reflexivity|].
      exact B.
    + repeat match goal with
             | |- context [if ?b then _ else _] => destruct b
             end; discriminate.
Qed.

End FresnelTransform.



(** *** OneVarFunctionForNumpy, max, min and window_norm *)

Section OneVarMacro.

Variables F_Float F_Double F_Long_Double F_Char F_UChar F_Short F_UShort
          F_Int F_UInt F_Long F_ULong F_Long_Long
  : npy_scalar -> npy_scalar.

(** X13.  A wrapper made by OneVarFunctionForNumpy, given a non-empty
    one-dimensional array of a handled type, returns without error an array
    of the same length whose [i]-th element is the routine of that type
    applied to the [i]-th element of the input. *)
Theorem OneVarFunctionForNumpy_elementwise (x : PyArrayObject)
  (t : NPY_TYPES) (data : list npy_scalar) :
  x = {| PyArray_TYPE := t;
         PyArray_DIMS := [Z.of_nat (length data)];
         PyArray_DATA := data |} ->
  handled_type t = true ->
  data <> [] ->
  OneVarFunctionForNumpy F_Float F_Double F_Long_Double F_Char F_UChar
    F_Short F_UShort F_Int F_UInt F_Long F_ULong F_Long_Long [PyArray x] =
  Return (PyArray
            {| PyArray_TYPE := output_type t;
               PyArray_DIMS := [Z.of_nat (length data)];
               PyArray_DATA :=
                 map (routine_for F_Float F_Double F_Long_Double F_Char
                        F_UChar F_Short F_UShort F_Int F_UInt F_Long F_ULong
                        F_Long_Long t) data |}).
Proof.
  intros -> Ht Hne.
  unfold OneVarFunctionForNumpy, besselJ0, besselJ0_integer, PyArray_NDIM.
  cbn [PyArg_ParseTuple convert PyArray_DIMS PyArray_TYPE PyArray_DATA length].
  change (negb (Z.of_nat 1 =? 1)) with false. cbv iota.
  assert (E : (Z.of_nat (length data) =? 0) = false).
  { apply Z.eqb_neq. destruct data; [congruence|cbn [length]; lia]. }
  rewrite E. unfold array_from_one, new_array, Return.
  rewrite Nat2Z.id, firstn_all.
  destruct t; try discriminate Ht; reflexivity.
Qed.

End OneVarMacro.

Section MaxMinFacts.

Variables Max_Float Max_Double Max_Long_Double
  : list npy_scalar -> Z -> float.
Variables Max_Short Max_Int Max_Long Max_Long_Long
  : list npy_scalar -> Z -> Z.
Variables Min_Float Min_Double Min_Long_Double
  : list npy_scalar -> Z -> float.
Variables Min_Short Min_Int Min_Long Min_Long_Long
  : list npy_scalar -> Z -> Z.
Variables Normeq_Float Normeq_Double Normeq_Long_Double Normeq_Short
          Normeq_Int Normeq_Long Normeq_Long_Long
  : list npy_scalar -> Z -> float.

(** X14.  max, min and compute_norm_eq reject exactly the same arguments
    (the [switch] of max and the [if] chains of the other two select the
    same element types), and what max and min raise is always TypeError. *)
Theorem max_min_same_domain (args : list PyObject) :
  let max_r := max Max_Float Max_Double Max_Long_Double Max_Short Max_Int
                 Max_Long Max_Long_Long args in
  let min_r := min Min_Float Min_Double Min_Long_Double Min_Short Min_Int
                 Min_Long Min_Long_Long args in
  let norm_r := compute_norm_eq Normeq_Float Normeq_Double Normeq_Long_Double
                  Normeq_Short Normeq_Int Normeq_Long Normeq_Long_Long args in
  returns_NULL max_r = returns_NULL min_r /\
  returns_NULL max_r = returns_NULL norm_r /\
  (returns_NULL max_r = true -> max_r = Raise PyExc_TypeError) /\
  (returns_NULL min_r = true -> min_r = Raise PyExc_TypeError).
Proof.
  cbv zeta. unfold max, min, compute_norm_eq.
  destruct args as [|tuple rest]; [cbn; intuition discriminate|].
  destruct (PyLong_Check tuple).
  { destruct (PyArg_ParseTuple [fmt_l] (tuple :: rest)) as [[|[] []]|];
      cbn; intuition discriminate. }
  destruct (PyFloat_Check tuple).
  { destruct (PyArg_ParseTuple [fmt_d] (tuple :: rest)) as [[|[] []]|];
      cbn; intuition discriminate. }
  destruct (PyArg_ParseTuple [fmt_O_array] (tuple :: rest))
    as [[|[arr| | | |] []]|];
    try (cbn; intuition discriminate).
  unfold max_array, min_array, compute_norm_eq_array.
  destruct (negb (PyArray_NDIM arr =? 1)); [cbn; intuition discriminate|].
  cbv zeta. destruct (to_npy_int (hd 0 (PyArray_DIMS arr)) =? 0);
    [cbn; intuition discriminate|].
  destruct (PyArray_TYPE arr); cbn; intuition discriminate.
Qed.

End MaxMinFacts.

Section WindowNormFacts.

Variables Window_Normalization_Complex_Float
          Window_Normalization_Complex_Double
          Window_Normalization_Complex_Long_Double
          Window_Normalization_Float Window_Normalization_Double
          Window_Normalization_Long_Double
  : list npy_scalar -> Z -> float -> float -> float.
Variable number : Type.
Variable number_to_long : number -> Z.
Variable number_to_double : number -> float.
Variables Window_Normalization_Int Window_Normalization_Long
  : list npy_scalar -> Z -> float -> float -> number.

(** X15.  When its first argument is an int or a float, window_norm never
    returns [NULL]: the result of [PyArg_ParseTuple] is not looked at in
    these two branches, so arguments that do not parse are not reported. *)
Theorem window_norm_scalar_never_NULL (tuple : PyObject)
  (rest : list PyObject) :
  PyLong_Check tuple || PyFloat_Check tuple = true ->
  returns_NULL
    (window_norm Window_Normalization_Complex_Float
       Window_Normalization_Complex_Double
       Window_Normalization_Complex_Long_Double Window_Normalization_Float
       Window_Normalization_Double Window_Normalization_Long_Double
       number number_to_long number_to_double
       Window_Normalization_Int Window_Normalization_Long (tuple :: rest))
  = false.
Proof.
  intros H. unfold window_norm.
  destruct (PyLong_Check tuple).
  - destruct (PyArg_ParseTuple _ _) as [[|[] [|[] [|[] []]]]|]; reflexivity.
  - cbn in H. rewrite H.
    destruct (PyArg_ParseTuple _ _) as [[|[] [|[] [|[] []]]]|]; reflexivity.
Qed.

End WindowNormFacts.

End MoreWrappersFacts.

(** *** Runs on concrete arguments *)

Module MoreRuns.

Import CDouble SpecialFunctions CPython Wrappers Numerics MoreWrappers.
Import NumericsFacts WhereFacts UfuncFacts MoreWrappersFacts.
Local Open Scope Z_scope.

Lemma Kaiser_Bessel_nonpositive_width_witness :
  rssringoccs_Kaiser_Bessel_Double Bessel_I0_series 0 (-2) 2.5 = 0%float.
Proof.
  apply (Kaiser_Bessel_nonpositive_width Bessel_I0_series 0 (-2) 2.5).
  reflexivity.
Defined.

Lemma LambertW_inner_returns_dead_witness :
  LambertW_Double exp_series log_series 20 1 =
  LambertW_loop exp_series 20 1 (1 - halley_dx exp_series 1 1)
    (halley_dx exp_series 1 1).
Proof.
  exact (LambertW_inner_returns_dead exp_series log_series 20 1 eq_refl).
Defined.

Lemma get_where_pointer_indices_witness :
  exists arr arr_size,
    Where_Greater_Double [1; 3; 2; 5]%float 4 2.5 [7; 7; 7; 7]
      = Some (arr, arr_size) /\
    forall n : Z,
      In n arr <->
      0 <= n < 4 /\
      exists d, nth_error [1; 3; 2; 5]%float (Z.to_nat n) = Some d /\
                PrimFloat.ltb 2.5 d = true.
Proof.
  exact (get_where_pointer_indices float (fun d => d) [1; 3; 2; 5]%float 4
           2.5 [7; 7; 7; 7] ltac:(cbn; lia) eq_refl).
Defined.

Lemma get_where_pointer_sorted_witness :
  StronglySorted Z.lt [1; 3] /\ NoDup [1; 3].
Proof.
  exact (get_where_pointer_sorted float (fun d => d) [1; 3; 2; 5]%float 4
           2.5 [7; 7; 7; 7] [1; 3] 2 ltac:(cbn; lia) eq_refl eq_refl).
Defined.

Lemma get_where_pointer_count_witness :
  2 = Z.of_nat (length [1; 3]) /\ 0 <= 2 <= Z.max 0 4.
Proof.
  exact (get_where_pointer_count float (fun d => d) [1; 3; 2; 5]%float 4
           2.5 [7; 7; 7; 7] [1; 3] 2 ltac:(cbn; lia) eq_refl eq_refl).
Defined.

Lemma get_where_pointer_nan_witness :
  Where_Greater_Long [1; 3; 2; 5] 4 PrimFloat.nan [7; 7; 7; 7]
    = Some ([], 0).
Proof.
  exact (get_where_pointer_nan Z of_Z [1; 3; 2; 5] 4 [7; 7; 7; 7]
           ltac:(cbn; lia) eq_refl).
Defined.

Lemma double_fresnel_scale_elementwise_witness :
  double_fresnel_scale sum_Fresnel_Scale [1; 2]%float [10]%float
    [100; 200]%float [1000; 2000]%float 2 [8; 0; 8; 8]
  = Some [sum_Fresnel_Scale 1 10 100 1000;
          sum_Fresnel_Scale 2 10 200 2000].
Proof.
  exact (double_fresnel_scale_elementwise sum_Fresnel_Scale [1; 2]%float
           [10]%float [100; 200]%float [1000; 2000]%float 2 [8; 0; 8; 8]
           ltac:(cbn; lia) ltac:(cbn; lia) ltac:(cbn; lia) ltac:(cbn; lia)).
Defined.

Lemma besselJ0_one_dimensional_witness :
  besselJ0 no_scalar no_scalar no_scalar no_scalar no_scalar no_scalar
    no_scalar no_scalar no_scalar no_scalar no_scalar no_scalar loop_map
    [PyArray (real_array [1; 2]%float)]
  = Return (new_array NPY_DOUBLE 2 [npy_real 1; npy_real 2]).
Proof.
  exact (besselJ0_one_dimensional no_scalar no_scalar no_scalar no_scalar
           no_scalar no_scalar no_scalar no_scalar no_scalar no_scalar
           no_scalar no_scalar loop_map (real_array [1; 2]%float) 2 eq_refl).
Defined.

Lemma besselJ0_other_shapes_witness :
  besselJ0 no_scalar no_scalar no_scalar no_scalar no_scalar no_scalar
    no_scalar no_scalar no_scalar no_scalar no_scalar no_scalar loop_map
    [PyArray {| PyArray_TYPE := NPY_DOUBLE;
                PyArray_DIMS := [1; 2];
                PyArray_DATA := [npy_real 1; npy_real 2] |}]
  = Raise PyExc_TypeError.
Proof.
  exact (besselJ0_other_shapes no_scalar no_scalar no_scalar no_scalar
           no_scalar no_scalar no_scalar no_scalar no_scalar no_scalar
           no_scalar no_scalar loop_map
           {| PyArray_TYPE := NPY_DOUBLE;
              PyArray_DIMS := [1; 2];
              PyArray_DATA := [npy_real 1; npy_real 2] |}
           ltac:(vm_compute; discriminate)).
Defined.

Lemma OneVarFunctionForNumpy_elementwise_witness :
  OneVarFunctionForNumpy no_scalar no_scalar no_scalar no_scalar no_scalar
    no_scalar no_scalar no_scalar no_scalar no_scalar no_scalar no_scalar
    [PyArray {| PyArray_TYPE := NPY_INT;
                PyArray_DIMS := [2];
                PyArray_DATA := [npy_int 1; npy_int 2] |}]
  = Return (PyArray {| PyArray_TYPE := NPY_DOUBLE;
                       PyArray_DIMS := [2];
                       PyArray_DATA := [npy_int 1; npy_int 2] |}).
Proof.
  exact (OneVarFunctionForNumpy_elementwise no_scalar no_scalar no_scalar
           no_scalar no_scalar no_scalar no_scalar no_scalar no_scalar
           no_scalar no_scalar no_scalar _ NPY_INT [npy_int 1; npy_int 2]
           eq_refl eq_refl ltac:(discriminate)).
Defined.

Lemma window_norm_scalar_never_NULL_witness :
  returns_NULL
    (window_norm no_Window no_Window no_Window no_Window no_Window no_Window
       float (fun _ => 0) (fun d => d) no_Window no_Window
       [PyLong 3; PyNone]) = false.
Proof.
  apply (window_norm_scalar_never_NULL no_Window no_Window no_Window
           no_Window no_Window no_Window float (fun _ => 0) (fun d => d)
           no_Window no_Window (PyLong 3) [PyNone]).
  reflexivity.
Defined.

Lemma fresnel_transform_early_return_witness :
  snd (fresnel_transform list_items stale_cells copy_input [PyNone]
         empty_heap) = empty_heap.
Proof.
  apply (fresnel_transform_early_return list_items stale_cells copy_input
           [PyNone] empty_heap).
  reflexivity.
Defined.

Lemma fresnel_transform_setup_invariant_witness :
  (length (perturb (sample_dlp 0)) = 5)%nat /\
  (start (sample_dlp 0) <= arr_size (sample_dlp 0)) /\
  (start (sample_dlp 0) + n_used (sample_dlp 0) <= arr_size (sample_dlp 0)) /\
  (0 <= 0 <= 255) /\
  (0 <= order (sample_dlp 0) <= 255) /\
  (0 <= interp (sample_dlp 0) <= 255) /\
  (T_out (sample_dlp 0) = None \/
   T_out (sample_dlp 0) = Some (next_block empty_heap)).
Proof.
  exact (fresnel_transform_setup_invariant list_items stale_cells
           (sample_args 0 0 no_perturb 0) empty_heap 0 (sample_dlp 0) None
           (snd (malloc empty_heap 32)) eq_refl).
Defined.

Lemma fresnel_transform_D_km_vals_length_witness :
  fresnel_transform_setup list_items stale_cells
    (sample_call (real_array [1]%float) no_perturb) empty_heap
  = inr (0, with_D_km_vals (sample_dlp 0) [npy_real 1], None,
         snd (malloc empty_heap 32)).
Proof.
  unfold sample_call.
  rewrite (fresnel_transform_D_km_vals_length list_items stale_cells
             (complex_array [(1, 0); (1, 0)]%float)
             (real_array [87400; 87401]%float) (real_array [1; 1]%float)
             (real_array [0; 0]%float) (real_array [1; 1]%float)
             (real_array [0.5; 0.5]%float)
             (real_array [200000; 200000]%float) (real_array [1]%float)
             (real_array [4; 4]%float) no_perturb 0 1 0 1 0 0 0 0
             PrimFloat.zero PrimFloat.zero empty_heap eq_refl eq_refl).
  reflexivity.
Defined.


Lemma fresnel_transform_returns_object_witness :
  fresnel_transform_status list_items stale_cells copy_input
    (sample_args 0 0 no_perturb 0) empty_heap = Some 0 /\
  exists use_fft dlp err h1 y,
    fresnel_transform_setup list_items stale_cells
      (sample_args 0 0 no_perturb 0) empty_heap
      = inr (use_fft, dlp, err, h1) /\
    PyArray {| PyArray_TYPE := NPY_CDOUBLE;
               PyArray_DIMS := [2];
               PyArray_DATA := [npy_complex 1 0; npy_complex 1 0] |}
    = PyArray {| PyArray_TYPE := NPY_CDOUBLE;
                 PyArray_DIMS := [n_used dlp + 1];
                 PyArray_DATA := y |} /\
    pointee
      (snd (fresnel_transform list_items stale_cells copy_input
              (sample_args 0 0 no_perturb 0) empty_heap)) (T_out dlp)
    = Some y.
Proof.
  exact (fresnel_transform_returns_object list_items stale_cells copy_input
           (sample_args 0 0 no_perturb 0) empty_heap _ None eq_refl).
Defined.

End MoreRuns.
